(** * ERP finance backend: the double-entry ledger

    A shallow embedding of the ledger part of the Express/Prisma backend:
    [journal.controller.ts], [invoice.controller.ts], [payment.controller.ts]
    and [report.controller.ts].

    Modelling conventions.
    - The database is a record of tables; a table is the list of its rows in
      insertion order.  Primary keys are natural numbers, a new row receives
      the successor of the largest key of its table.
    - Monetary amounts (Prisma [Decimal] and the JavaScript numbers built
      from them) are exact rationals [Q].  Rounding of IEEE doubles and of the
      [DECIMAL(15,2)] columns is outside the model.
    - A request handler is a computation in a state-and-exception monad over
      the database.  There is no transaction: what a handler wrote before it
      throws stays written.
    - [new Date()] and [req.user.id] are read from a request context. *)

From Stdlib Require Import List String Ascii ZArith QArith Qabs Lia Lqa Bool Arith DecimalString.
Import ListNotations.

Open Scope string_scope.
Open Scope list_scope.
Open Scope nat_scope.
Open Scope Q_scope.

(** ** Enumerations of the schema *)

Inductive AccountType := ASSET | LIABILITY | EQUITY | REVENUE | EXPENSE.
Inductive EntryStatus := DRAFT | PENDING | APPROVED | REJECTED.
Inductive InvoiceType := RECEIVABLE | PAYABLE.
Inductive InvoiceStatus :=
  INVOICE_DRAFT | SENT | PAID | PARTIAL | OVERDUE | CANCELLED.
Inductive CashFlowType := INFLOW | OUTFLOW.

Definition AccountType_eqb (a b : AccountType) : bool :=
  match a, b with
  | ASSET, ASSET | LIABILITY, LIABILITY | EQUITY, EQUITY
  | REVENUE, REVENUE | EXPENSE, EXPENSE => true
  | _, _ => false
  end.

Definition EntryStatus_eqb (a b : EntryStatus) : bool :=
  match a, b with
  | DRAFT, DRAFT | PENDING, PENDING | APPROVED, APPROVED
  | REJECTED, REJECTED => true
  | _, _ => false
  end.

Definition InvoiceType_eqb (a b : InvoiceType) : bool :=
  match a, b with
  | RECEIVABLE, RECEIVABLE | PAYABLE, PAYABLE => true
  | _, _ => false
  end.

Definition InvoiceStatus_eqb (a b : InvoiceStatus) : bool :=
  match a, b with
  | INVOICE_DRAFT, INVOICE_DRAFT | SENT, SENT | PAID, PAID
  | PARTIAL, PARTIAL | OVERDUE, OVERDUE | CANCELLED, CANCELLED => true
  | _, _ => false
  end.

(** ** Rows *)

Definition Id := nat.
Definition Date := Z.
Bind Scope nat_scope with Id.
Bind Scope Z_scope with Date.

(** JSON payloads of audit records. *)
Inductive Json :=
| JString (s : string)
| JNumber (q : Q)
| JRef (i : Id)
| JUndefined.

Record Account := {
  acc_id : Id;
  acc_code : string;
  acc_name : string;
  acc_type : AccountType;
  acc_balance : Q;
  acc_currency : string;
  acc_isActive : bool
}.

Record JournalEntry := {
  je_id : Id;
  je_entryNumber : string;
  je_date : Date;
  je_description : string;
  je_status : EntryStatus;
  je_createdById : Id;
  je_approvedAt : option Date
}.

Record JournalLine := {
  jl_id : Id;
  jl_journalEntryId : Id;
  jl_accountId : Id;
  jl_debit : Q;
  jl_credit : Q;
  jl_description : option string
}.

Record Invoice := {
  inv_id : Id;
  inv_invoiceNumber : string;
  inv_type : InvoiceType;
  inv_customerId : option Id;
  inv_vendorId : option Id;
  inv_projectId : option Id;
  inv_issueDate : Date;
  inv_dueDate : Date;
  inv_subtotal : Q;
  inv_tax : Q;
  inv_total : Q;
  inv_currency : string;
  inv_status : InvoiceStatus
}.

Record InvoiceItem := {
  item_id : Id;
  item_invoiceId : Id;
  item_description : string;
  item_quantity : Q;
  item_unitPrice : Q;
  item_amount : Q
}.

Record Payment := {
  pay_id : Id;
  pay_paymentNumber : string;
  pay_invoiceId : Id;
  pay_vendorId : option Id;
  pay_customerId : option Id;
  pay_amount : Q;
  pay_currency : string;
  pay_paymentDate : Date;
  pay_paymentMethod : option string;
  pay_reference : option string
}.

Record CashFlow := {
  cf_id : Id;
  cf_date : Date;
  cf_type : CashFlowType;
  cf_category : string;
  cf_amount : Q;
  cf_description : string
}.

Record AuditLog := {
  al_id : Id;
  al_userId : Id;
  al_action : string;
  al_entity : string;
  al_entityId : Id;
  al_details : list (string * Json)
}.

(** ** The database *)

Record Store := {
  accounts : list Account;
  journalEntries : list JournalEntry;
  journalLines : list JournalLine;
  invoices : list Invoice;
  invoiceItems : list InvoiceItem;
  payments : list Payment;
  cashFlows : list CashFlow;
  auditLogs : list AuditLog
}.

Definition setAccounts (s : Store) (x : list Account) : Store :=
  {| accounts := x; journalEntries := journalEntries s;
     journalLines := journalLines s; invoices := invoices s;
     invoiceItems := invoiceItems s; payments := payments s;
     cashFlows := cashFlows s; auditLogs := auditLogs s |}.

Definition setJournal (s : Store) (es : list JournalEntry) (ls : list JournalLine) : Store :=
  {| accounts := accounts s; journalEntries := es;
     journalLines := ls; invoices := invoices s;
     invoiceItems := invoiceItems s; payments := payments s;
     cashFlows := cashFlows s; auditLogs := auditLogs s |}.

Definition setInvoices (s : Store) (x : list Invoice) (it : list InvoiceItem) : Store :=
  {| accounts := accounts s; journalEntries := journalEntries s;
     journalLines := journalLines s; invoices := x;
     invoiceItems := it; payments := payments s;
     cashFlows := cashFlows s; auditLogs := auditLogs s |}.

Definition setPayments (s : Store) (x : list Payment) : Store :=
  {| accounts := accounts s; journalEntries := journalEntries s;
     journalLines := journalLines s; invoices := invoices s;
     invoiceItems := invoiceItems s; payments := x;
     cashFlows := cashFlows s; auditLogs := auditLogs s |}.

Definition setCashFlows (s : Store) (x : list CashFlow) : Store :=
  {| accounts := accounts s; journalEntries := journalEntries s;
     journalLines := journalLines s; invoices := invoices s;
     invoiceItems := invoiceItems s; payments := payments s;
     cashFlows := x; auditLogs := auditLogs s |}.

Definition setAuditLogs (s : Store) (x : list AuditLog) : Store :=
  {| accounts := accounts s; journalEntries := journalEntries s;
     journalLines := journalLines s; invoices := invoices s;
     invoiceItems := invoiceItems s; payments := payments s;
     cashFlows := cashFlows s; auditLogs := x |}.

(** The key given to a row inserted into a table whose keys are [ids]. *)
Definition freshId (ids : list Id) : Id := S (list_max ids).

(** ** Handlers: state over the database, with [AppError] exceptions *)

Inductive ErrMsg :=
| Msg (s : string)
| MsgDecimal (s : string) (d : Q).

Record AppError := { err_message : ErrMsg; err_statusCode : nat }.

Inductive Outcome (A : Type) :=
| Ok (a : A)
| Throw (e : AppError).
Arguments Ok {A} a.
Arguments Throw {A} e.

Definition M (A : Type) : Type := Store -> Store * Outcome A.

Definition ret {A} (a : A) : M A := fun s => (s, Ok a).

Definition throw {A} (e : AppError) : M A := fun s => (s, Throw e).

Definition bind {A B} (m : M A) (k : A -> M B) : M B :=
  fun s =>
    match m s with
    | (s', Ok a) => k a s'
    | (s', Throw e) => (s', Throw e)
    end.

Declare Scope handler_scope.
Delimit Scope handler_scope with handler.
Notation "x <- c1 ;; c2" := (bind c1 (fun x => c2))
  (at level 100, c1 at next level, right associativity) : handler_scope.
Notation "c1 ;;; c2" := (bind c1 (fun _ => c2))
  (at level 100, right associativity) : handler_scope.
Open Scope handler_scope.

(** [for (const x of l) { body x }] *)
Fixpoint forOf {A} (l : list A) (body : A -> M unit) : M unit :=
  match l with
  | [] => ret tt
  | x :: rest => body x ;;; forOf rest body
  end.

(** What a request carries besides its body: the authenticated user and the
    clock ([new Date()], its [getFullYear()], and the first instant of that
    year, [new Date(year, 0, 1)]). *)
Record Req := {
  req_userId : Id;
  req_now : Date;
  req_year : nat;
  req_startOfYear : Date
}.

(** ** String helpers *)

Definition stringOfNat (n : nat) : string :=
  NilZero.string_of_uint (Nat.to_uint n).

Fixpoint repeatChar (n : nat) (c : ascii) : string :=
  match n with
  | O => EmptyString
  | S k => String c (repeatChar k c)
  end.

(** [s.padStart(n, c)] *)
Definition padStart (s : string) (n : nat) (c : ascii) : string :=
  (repeatChar (n - String.length s) c ++ s)%string.

(** [`${prefix}-${year}-${String(count + 1).padStart(5, '0')}`] *)
Definition formatNumber (prefix : string) (year count : nat) : string :=
  (prefix ++ "-" ++ stringOfNat year ++ "-"
     ++ padStart (stringOfNat (count + 1)) 5 "0"%char)%string.

(** [a < b] on decimals, as a boolean. *)
Definition Qltb (a b : Q) : bool := negb (Qle_bool b a).

(** ** The Prisma client: queries and writes used by the controllers *)

Module Prisma.

(** *** account *)

Definition account_findUnique_id (id : Id) : M (option Account) :=
  fun s => (s, Ok (find (fun a => acc_id a =? id) (accounts s))).

Definition account_findUnique_code (code : string) : M (option Account) :=
  fun s => (s, Ok (find (fun a => String.eqb (acc_code a) code) (accounts s))).

Definition incrementBalance (delta : Q) (a : Account) : Account :=
  {| acc_id := acc_id a; acc_code := acc_code a; acc_name := acc_name a;
     acc_type := acc_type a; acc_balance := acc_balance a + delta;
     acc_currency := acc_currency a; acc_isActive := acc_isActive a |}.

Definition recordNotFound : AppError :=
  {| err_message := Msg "Record to update not found."; err_statusCode := 500 |}.

(** [account.update({ where: { id }, data: { balance: { increment } } })];
    [decrement: x] is [increment: -x]. *)
Definition account_update_increment (id : Id) (delta : Q) : M unit :=
  fun s =>
    if existsb (fun a => acc_id a =? id) (accounts s)
    then (setAccounts s
            (map (fun a => if acc_id a =? id then incrementBalance delta a else a)
                 (accounts s)),
          Ok tt)
    else (s, Throw recordNotFound).

Definition account_update_decrement (id : Id) (delta : Q) : M unit :=
  account_update_increment id (- delta).

Definition account_findMany_active : M (list Account) :=
  fun s => (s, Ok (filter acc_isActive (accounts s))).

(** *** journalEntry, with its nested lines *)

Record JournalLineData := {
  jld_accountId : Id;
  jld_debit : Q;
  jld_credit : Q;
  jld_description : option string
}.

Record JournalEntryData := {
  jed_entryNumber : string;
  jed_date : Date;
  jed_description : string;
  jed_createdById : Id;
  jed_status : option EntryStatus;
  jed_approvedAt : option Date;
  jed_lines : list JournalLineData
}.

Definition journalEntry_count : M nat :=
  fun s => (s, Ok (List.length (journalEntries s))).

Definition journalEntry_findUnique (id : Id) : M (option JournalEntry) :=
  fun s => (s, Ok (find (fun e => je_id e =? id) (journalEntries s))).

(** The rows a query with [include: { lines: true }] attaches. *)
Definition linesOf (s : Store) (entryId : Id) : list JournalLine :=
  filter (fun l => jl_journalEntryId l =? entryId) (journalLines s).

(** [journalEntry.findUnique({ where: { id }, include: { lines: true } })] *)
Definition journalEntry_findUnique_lines (id : Id)
  : M (option (JournalEntry * list JournalLine)) :=
  fun s =>
    (s, Ok (match find (fun e => je_id e =? id) (journalEntries s) with
            | Some e => Some (e, linesOf s (je_id e))
            | None => None
            end)).

Definition mkLine (id entryId : Id) (d : JournalLineData) : JournalLine :=
  {| jl_id := id; jl_journalEntryId := entryId;
     jl_accountId := jld_accountId d; jl_debit := jld_debit d;
     jl_credit := jld_credit d; jl_description := jld_description d |}.

Fixpoint insertLines (entryId : Id) (ds : list JournalLineData)
         (tbl : list JournalLine) : list JournalLine :=
  match ds with
  | [] => tbl
  | d :: rest =>
      insertLines entryId rest
        (tbl ++ [mkLine (freshId (map jl_id tbl)) entryId d])
  end.

(** [journalEntry.create]; the column default of [status] is DRAFT. *)
Definition journalEntry_create (d : JournalEntryData) : M JournalEntry :=
  fun s =>
    let e := {| je_id := freshId (map je_id (journalEntries s));
                je_entryNumber := jed_entryNumber d;
                je_date := jed_date d;
                je_description := jed_description d;
                je_status := match jed_status d with
                             | Some st => st
                             | None => DRAFT
                             end;
                je_createdById := jed_createdById d;
                je_approvedAt := jed_approvedAt d |} in
    (setJournal s (journalEntries s ++ [e])
       (insertLines (je_id e) (jed_lines d) (journalLines s)),
     Ok e).

(** The row [e] after [data: { status, approvedAt? }] has been written. *)
Definition updateEntry (st : EntryStatus) (approvedAt : option Date)
           (e : JournalEntry) : JournalEntry :=
  {| je_id := je_id e; je_entryNumber := je_entryNumber e;
     je_date := je_date e; je_description := je_description e;
     je_status := st; je_createdById := je_createdById e;
     je_approvedAt := match approvedAt with
                      | Some d => Some d
                      | None => je_approvedAt e
                      end |}.

(** [journalEntry.update({ where: { id }, data })] for a [data] that sets
    the status and, when given, the approval time. *)
Definition journalEntry_update (id : Id) (st : EntryStatus)
           (approvedAt : option Date) : M JournalEntry :=
  fun s =>
    match find (fun e => je_id e =? id) (journalEntries s) with
    | Some e =>
        (setJournal s
           (map (fun e' => if je_id e' =? id
                           then updateEntry st approvedAt e' else e')
                (journalEntries s))
           (journalLines s),
         Ok (updateEntry st approvedAt e))
    | None => (s, Throw recordNotFound)
    end.

(** *** auditLog *)

Definition auditLog_create (userId : Id) (action entity : string)
           (entityId : Id) (details : list (string * Json)) : M unit :=
  fun s =>
    (setAuditLogs s
       (auditLogs s ++
          [{| al_id := freshId (map al_id (auditLogs s));
              al_userId := userId; al_action := action;
              al_entity := entity; al_entityId := entityId;
              al_details := details |}]),
     Ok tt).

End Prisma.

(** ** journal.controller.ts *)

Module JournalController.
Import Prisma.

Definition generateEntryNumber (req : Req) : M string :=
  count <- journalEntry_count ;;
  ret (formatNumber "JE" (req_year req) count).

Record LineInput := {
  li_accountId : Id;
  li_debit : Q;
  li_credit : Q;
  li_description : option string
}.

Record CreateBody := {
  cb_date : Date;
  cb_description : string;
  cb_lines : list LineInput
}.

Definition totalDebits (lines : list LineInput) : Q :=
  fold_left (fun sum line => sum + li_debit line) lines 0.

Definition totalCredits (lines : list LineInput) : Q :=
  fold_left (fun sum line => sum + li_credit line) lines 0.

Definition createJournalEntry (req : Req) (body : CreateBody) : M JournalEntry :=
  let lines := cb_lines body in
  if Qltb (1 # 100) (Qabs (totalDebits lines - totalCredits lines))
  then throw {| err_message := Msg "Debits must equal credits";
                err_statusCode := 400 |}
  else
    entryNumber <- generateEntryNumber req ;;
    entry <- journalEntry_create
               {| jed_entryNumber := entryNumber;
                  jed_date := cb_date body;
                  jed_description := cb_description body;
                  jed_createdById := req_userId req;
                  jed_status := None;
                  jed_approvedAt := None;
                  jed_lines :=
                    map (fun line =>
                           {| jld_accountId := li_accountId line;
                              jld_debit := li_debit line;
                              jld_credit := li_credit line;
                              jld_description := li_description line |})
                        lines |} ;;
    auditLog_create (req_userId req) "CREATE" "JournalEntry" (je_id entry)
      [("entryNumber", JString entryNumber);
       ("description", JString (cb_description body))] ;;;
    ret entry.

(** The body of the loop over [entry.lines] in [approveJournalEntry]. *)
Definition balanceChange (account : Account) (line : JournalLine) : Q :=
  let debit := jl_debit line in
  let credit := jl_credit line in
  if AccountType_eqb (acc_type account) ASSET
     || AccountType_eqb (acc_type account) EXPENSE
  then debit - credit
  else credit - debit.

Definition applyLine (line : JournalLine) : M unit :=
  account <- account_findUnique_id (jl_accountId line) ;;
  match account with
  | None => ret tt
  | Some account =>
      account_update_increment (jl_accountId line) (balanceChange account line)
  end.

Definition approveJournalEntry (req : Req) (id : Id) : M JournalEntry :=
  entry <- journalEntry_findUnique_lines id ;;
  match entry with
  | None => throw {| err_message := Msg "Journal entry not found";
                     err_statusCode := 404 |}
  | Some (entry, lines) =>
      if negb (EntryStatus_eqb (je_status entry) PENDING)
         && negb (EntryStatus_eqb (je_status entry) DRAFT)
      then throw {| err_message := Msg "Entry cannot be approved";
                    err_statusCode := 400 |}
      else
        updatedEntry <- journalEntry_update id APPROVED (Some (req_now req)) ;;
        forOf lines applyLine ;;;
        auditLog_create (req_userId req) "APPROVE" "JournalEntry"
          (je_id entry) [] ;;;
        ret updatedEntry
  end.

Definition rejectJournalEntry (req : Req) (id : Id) (reason : Json)
  : M JournalEntry :=
  entry <- journalEntry_findUnique id ;;
  match entry with
  | None => throw {| err_message := Msg "Journal entry not found";
                     err_statusCode := 404 |}
  | Some entry =>
      updatedEntry <- journalEntry_update id REJECTED None ;;
      auditLog_create (req_userId req) "REJECT" "JournalEntry"
        (je_id entry) [("reason", reason)] ;;;
      ret updatedEntry
  end.

End JournalController.

(** ** Prisma client, continued: invoices, payments, cash flows *)

Module PrismaInvoicing.

Record InvoiceItemData := {
  iid_description : string;
  iid_quantity : Q;
  iid_unitPrice : Q;
  iid_amount : Q
}.

Record InvoiceData := {
  ivd_invoiceNumber : string;
  ivd_type : InvoiceType;
  ivd_vendorId : option Id;
  ivd_customerId : option Id;
  ivd_projectId : option Id;
  ivd_issueDate : Date;
  ivd_dueDate : Date;
  ivd_subtotal : Q;
  ivd_tax : Q;
  ivd_total : Q;
  ivd_currency : string;
  ivd_items : list InvoiceItemData
}.

Definition invoice_count_type (t : InvoiceType) : M nat :=
  fun s =>
    (s, Ok (List.length
              (filter (fun i => InvoiceType_eqb (inv_type i) t) (invoices s)))).

Definition mkItem (id invoiceId : Id) (d : InvoiceItemData) : InvoiceItem :=
  {| item_id := id; item_invoiceId := invoiceId;
     item_description := iid_description d;
     item_quantity := iid_quantity d;
     item_unitPrice := iid_unitPrice d;
     item_amount := iid_amount d |}.

Fixpoint insertItems (invoiceId : Id) (ds : list InvoiceItemData)
         (tbl : list InvoiceItem) : list InvoiceItem :=
  match ds with
  | [] => tbl
  | d :: rest =>
      insertItems invoiceId rest
        (tbl ++ [mkItem (freshId (map item_id tbl)) invoiceId d])
  end.

(** [invoice.create]; the column default of [status] is DRAFT. *)
Definition invoice_create (d : InvoiceData) : M Invoice :=
  fun s =>
    let i := {| inv_id := freshId (map inv_id (invoices s));
                inv_invoiceNumber := ivd_invoiceNumber d;
                inv_type := ivd_type d;
                inv_customerId := ivd_customerId d;
                inv_vendorId := ivd_vendorId d;
                inv_projectId := ivd_projectId d;
                inv_issueDate := ivd_issueDate d;
                inv_dueDate := ivd_dueDate d;
                inv_subtotal := ivd_subtotal d;
                inv_tax := ivd_tax d;
                inv_total := ivd_total d;
                inv_currency := ivd_currency d;
                inv_status := INVOICE_DRAFT |} in
    (setInvoices s (invoices s ++ [i])
       (insertItems (inv_id i) (ivd_items d) (invoiceItems s)),
     Ok i).

(** The rows a query with [include: { payments: true }] attaches. *)
Definition paymentsOf (s : Store) (invoiceId : Id) : list Payment :=
  filter (fun p => pay_invoiceId p =? invoiceId) (payments s).

(** [invoice.findUnique({ where: { id }, include: { payments: true } })] *)
Definition invoice_findUnique_payments (id : Id)
  : M (option (Invoice * list Payment)) :=
  fun s =>
    (s, Ok (match find (fun i => inv_id i =? id) (invoices s) with
            | Some i => Some (i, paymentsOf s (inv_id i))
            | None => None
            end)).

Definition setInvoiceStatus (st : InvoiceStatus) (i : Invoice) : Invoice :=
  {| inv_id := inv_id i; inv_invoiceNumber := inv_invoiceNumber i;
     inv_type := inv_type i; inv_customerId := inv_customerId i;
     inv_vendorId := inv_vendorId i; inv_projectId := inv_projectId i;
     inv_issueDate := inv_issueDate i; inv_dueDate := inv_dueDate i;
     inv_subtotal := inv_subtotal i; inv_tax := inv_tax i;
     inv_total := inv_total i; inv_currency := inv_currency i;
     inv_status := st |}.

(** [invoice.update({ where: { id }, data: { status } })] *)
Definition invoice_update_status (id : Id) (st : InvoiceStatus) : M unit :=
  fun s =>
    if existsb (fun i => inv_id i =? id) (invoices s)
    then (setInvoices s
            (map (fun i => if inv_id i =? id then setInvoiceStatus st i else i)
                 (invoices s))
            (invoiceItems s),
          Ok tt)
    else (s, Throw Prisma.recordNotFound).

Definition payment_count : M nat :=
  fun s => (s, Ok (List.length (payments s))).

Record PaymentData := {
  pd_paymentNumber : string;
  pd_invoiceId : Id;
  pd_vendorId : option Id;
  pd_customerId : option Id;
  pd_amount : Q;
  pd_currency : option string;
  pd_paymentDate : Date;
  pd_paymentMethod : option string;
  pd_reference : option string
}.

(** [payment.create]; the column default of [currency] is USD. *)
Definition payment_create (d : PaymentData) : M Payment :=
  fun s =>
    let p := {| pay_id := freshId (map pay_id (payments s));
                pay_paymentNumber := pd_paymentNumber d;
                pay_invoiceId := pd_invoiceId d;
                pay_vendorId := pd_vendorId d;
                pay_customerId := pd_customerId d;
                pay_amount := pd_amount d;
                pay_currency := match pd_currency d with
                                | Some c => c
                                | None => "USD"
                                end;
                pay_paymentDate := pd_paymentDate d;
                pay_paymentMethod := pd_paymentMethod d;
                pay_reference := pd_reference d |} in
    (setPayments s (payments s ++ [p]), Ok p).

Definition cashFlow_create (date : Date) (t : CashFlowType)
           (category : string) (amount : Q) (description : string) : M unit :=
  fun s =>
    (setCashFlows s
       (cashFlows s ++
          [{| cf_id := freshId (map cf_id (cashFlows s));
              cf_date := date; cf_type := t; cf_category := category;
              cf_amount := amount; cf_description := description |}]),
     Ok tt).

(** [invoice.findUnique({ where: { id } })] *)
Definition invoice_findUnique (id : Id) : M (option Invoice) :=
  fun s => (s, Ok (find (fun i => inv_id i =? id) (invoices s))).

(** [invoice.findUnique({ where: { id },
      include: { payments: { orderBy: { createdAt: 'desc' } } } })]: the
    payments of the invoice, latest first. *)
Definition invoice_findUnique_payments_desc (id : Id)
  : M (option (Invoice * list Payment)) :=
  fun s =>
    (s, Ok (match find (fun i => inv_id i =? id) (invoices s) with
            | Some i => Some (i, rev (paymentsOf s (inv_id i)))
            | None => None
            end)).

Definition setStatusDueDate (st : InvoiceStatus) (due : Date) (i : Invoice)
  : Invoice :=
  {| inv_id := inv_id i; inv_invoiceNumber := inv_invoiceNumber i;
     inv_type := inv_type i; inv_customerId := inv_customerId i;
     inv_vendorId := inv_vendorId i; inv_projectId := inv_projectId i;
     inv_issueDate := inv_issueDate i; inv_dueDate := due;
     inv_subtotal := inv_subtotal i; inv_tax := inv_tax i;
     inv_total := inv_total i; inv_currency := inv_currency i;
     inv_status := st |}.

(** [invoice.update({ where: { id }, data: { status, dueDate } })] *)
Definition invoice_update (id : Id) (st : InvoiceStatus) (due : Date) : M Invoice :=
  fun s =>
    match find (fun i => inv_id i =? id) (invoices s) with
    | Some i =>
        (setInvoices s
           (map (fun x => if inv_id x =? id then setStatusDueDate st due x else x)
                (invoices s))
           (invoiceItems s),
         Ok (setStatusDueDate st due i))
    | None => (s, Throw Prisma.recordNotFound)
    end.

(** [invoice.delete({ where: { id } })]; the items of the invoice go with it
    ([ON DELETE CASCADE] on [InvoiceItem.invoiceId]). *)
Definition invoice_delete (id : Id) : M unit :=
  fun s =>
    if existsb (fun i => inv_id i =? id) (invoices s)
    then (setInvoices s
            (filter (fun i => negb (inv_id i =? id)) (invoices s))
            (filter (fun it => negb (item_invoiceId it =? id)) (invoiceItems s)),
          Ok tt)
    else (s, Throw Prisma.recordNotFound).

End PrismaInvoicing.

(** [x || d] for an optional string: absent and empty are both falsy. *)
Definition orDefault (x : option string) (d : string) : string :=
  match x with
  | Some v => if String.eqb v "" then d else v
  | None => d
  end.

Definition invoiceTypeName (t : InvoiceType) : string :=
  match t with
  | RECEIVABLE => "RECEIVABLE"
  | PAYABLE => "PAYABLE"
  end.

Definition isSome {A} (x : option A) : bool :=
  match x with
  | Some _ => true
  | None => false
  end.

Definition optString (x : option string) : Json :=
  match x with
  | Some v => JString v
  | None => JUndefined
  end.

(** ** invoice.controller.ts *)

Module InvoiceController.
Import Prisma PrismaInvoicing.

Definition generateInvoiceNumber (req : Req) (type : InvoiceType) : M string :=
  let prefix := if InvoiceType_eqb type RECEIVABLE then "INV" else "BILL" in
  count <- invoice_count_type type ;;
  ret (formatNumber prefix (req_year req) count).

Definition generateJournalEntryNumber (req : Req) : M string :=
  count <- journalEntry_count ;;
  ret (formatNumber "JE" (req_year req) count).

Record ItemInput := {
  ii_description : string;
  ii_quantity : Q;
  ii_unitPrice : Q
}.

Record CreateInvoiceBody := {
  cib_type : InvoiceType;
  cib_vendorId : option Id;
  cib_customerId : option Id;
  cib_projectId : option Id;
  cib_issueDate : Date;
  cib_dueDate : Date;
  cib_currency : option string;
  cib_items : list ItemInput
}.

Definition processItem (item : ItemInput) : InvoiceItemData :=
  {| iid_description := ii_description item;
     iid_quantity := ii_quantity item;
     iid_unitPrice := ii_unitPrice item;
     iid_amount := ii_quantity item * ii_unitPrice item |}.

(** The running [subtotal] after the [items.map] callback has seen every
    item. *)
Definition subtotalOf (items : list ItemInput) : Q :=
  fold_left (fun subtotal item => subtotal + iid_amount (processItem item))
            items 0.

Definition createInvoice (req : Req) (body : CreateInvoiceBody) : M Invoice :=
  let type := cib_type body in
  let subtotal := subtotalOf (cib_items body) in
  let processedItems := map processItem (cib_items body) in
  let tax := subtotal * 0 in
  let total := subtotal + tax in
  invoiceNumber <- generateInvoiceNumber req type ;;
  invoice <- invoice_create
               {| ivd_invoiceNumber := invoiceNumber;
                  ivd_type := type;
                  ivd_vendorId := cib_vendorId body;
                  ivd_customerId := cib_customerId body;
                  ivd_projectId := cib_projectId body;
                  ivd_issueDate := cib_issueDate body;
                  ivd_dueDate := cib_dueDate body;
                  ivd_subtotal := subtotal;
                  ivd_tax := tax;
                  ivd_total := total;
                  ivd_currency := orDefault (cib_currency body) "USD";
                  ivd_items := processedItems |} ;;
  arAccount <- account_findUnique_code "1100" ;;
  apAccount <- account_findUnique_code "2000" ;;
  revenueAccount <- account_findUnique_code "4100" ;;
  cogsAccount <- account_findUnique_code "5000" ;;
  let totalNum := total in
  match type, arAccount, revenueAccount, apAccount, cogsAccount with
  | RECEIVABLE, Some arAccount, Some revenueAccount, _, _ =>
      entryNumber <- generateJournalEntryNumber req ;;
      journalEntry_create
        {| jed_entryNumber := entryNumber;
           jed_date := cib_issueDate body;
           jed_description := ("Invoice " ++ invoiceNumber ++ " - Customer billing")%string;
           jed_createdById := req_userId req;
           jed_status := Some APPROVED;
           jed_approvedAt := Some (req_now req);
           jed_lines :=
             [ {| jld_accountId := acc_id arAccount;
                  jld_debit := totalNum; jld_credit := 0;
                  jld_description := Some ("AR - " ++ invoiceNumber)%string |};
               {| jld_accountId := acc_id revenueAccount;
                  jld_debit := 0; jld_credit := totalNum;
                  jld_description := Some ("Revenue - " ++ invoiceNumber)%string |} ]
        |} ;;;
      account_update_increment (acc_id arAccount) totalNum ;;;
      account_update_increment (acc_id revenueAccount) totalNum
  | PAYABLE, _, _, Some apAccount, Some cogsAccount =>
      entryNumber <- generateJournalEntryNumber req ;;
      journalEntry_create
        {| jed_entryNumber := entryNumber;
           jed_date := cib_issueDate body;
           jed_description := ("Bill " ++ invoiceNumber ++ " - Vendor expense")%string;
           jed_createdById := req_userId req;
           jed_status := Some APPROVED;
           jed_approvedAt := Some (req_now req);
           jed_lines :=
             [ {| jld_accountId := acc_id cogsAccount;
                  jld_debit := totalNum; jld_credit := 0;
                  jld_description := Some ("Expense - " ++ invoiceNumber)%string |};
               {| jld_accountId := acc_id apAccount;
                  jld_debit := 0; jld_credit := totalNum;
                  jld_description := Some ("AP - " ++ invoiceNumber)%string |} ]
        |} ;;;
      account_update_increment (acc_id cogsAccount) totalNum ;;;
      account_update_increment (acc_id apAccount) totalNum
  | _, _, _, _, _ => ret tt
  end ;;;
  auditLog_create (req_userId req) "CREATE" "Invoice" (inv_id invoice)
    [("invoiceNumber", JString invoiceNumber);
     ("type", JString (invoiceTypeName type));
     ("total", JNumber total)] ;;;
  ret invoice.

Record RecordPaymentBody := {
  rpb_amount : Q;
  rpb_method : option string;
  rpb_reference : option string
}.

(** [invoice.payments.reduce((sum, p) => sum.plus(p.amount), new Decimal(0))] *)
Definition sumPayments (ps : list Payment) : Q :=
  fold_left (fun sum p => sum + pay_amount p) ps 0.

Definition recordPayment (req : Req) (id : Id) (body : RecordPaymentBody)
  : M Payment :=
  invoice <- invoice_findUnique_payments id ;;
  match invoice with
  | None => throw {| err_message := Msg "Invoice not found";
                     err_statusCode := 404 |}
  | Some (invoice, invoicePayments) =>
      if InvoiceStatus_eqb (inv_status invoice) PAID
      then throw {| err_message := Msg "Invoice is already fully paid";
                    err_statusCode := 400 |}
      else
        let paymentAmount := rpb_amount body in
        let totalPaid := sumPayments invoicePayments in
        let remaining := inv_total invoice - totalPaid in
        if Qltb remaining paymentAmount
        then throw {| err_message :=
                        MsgDecimal "Payment amount exceeds remaining balance of "
                                   remaining;
                      err_statusCode := 400 |}
        else
          paymentCount <- payment_count ;;
          let paymentNumber := formatNumber "PAY" (req_year req) paymentCount in
          payment <- payment_create
                       {| pd_paymentNumber := paymentNumber;
                          pd_invoiceId := inv_id invoice;
                          pd_vendorId := None;
                          pd_customerId := None;
                          pd_amount := paymentAmount;
                          pd_currency := None;
                          pd_paymentDate := req_now req;
                          pd_paymentMethod :=
                            Some (orDefault (rpb_method body) "BANK_TRANSFER");
                          pd_reference := rpb_reference body |} ;;
          let newTotalPaid := totalPaid + paymentAmount in
          let isFullyPaid := Qle_bool (inv_total invoice) newTotalPaid in
          invoice_update_status (inv_id invoice)
            (if isFullyPaid then PAID else PARTIAL) ;;;
          cashAccount <- account_findUnique_code "1000" ;;
          arAccount <- account_findUnique_code "1100" ;;
          apAccount <- account_findUnique_code "2000" ;;
          match cashAccount with
          | Some cashAccount =>
              if isSome arAccount || isSome apAccount then
                entryNumber <- generateJournalEntryNumber req ;;
                let paymentAmountNum := paymentAmount in
                let lines :=
                  match inv_type invoice, arAccount, apAccount with
                  | RECEIVABLE, Some arAccount, _ =>
                      Some
                        [ {| jld_accountId := acc_id cashAccount;
                             jld_debit := paymentAmountNum; jld_credit := 0;
                             jld_description :=
                               Some ("Payment received - " ++ inv_invoiceNumber invoice)%string |};
                          {| jld_accountId := acc_id arAccount;
                             jld_debit := 0; jld_credit := paymentAmountNum;
                             jld_description :=
                               Some ("AR reduction - " ++ inv_invoiceNumber invoice)%string |} ]
                  | _, _, Some apAccount =>
                      Some
                        [ {| jld_accountId := acc_id apAccount;
                             jld_debit := paymentAmountNum; jld_credit := 0;
                             jld_description :=
                               Some ("AP reduction - " ++ inv_invoiceNumber invoice)%string |};
                          {| jld_accountId := acc_id cashAccount;
                             jld_debit := 0; jld_credit := paymentAmountNum;
                             jld_description :=
                               Some ("Payment made - " ++ inv_invoiceNumber invoice)%string |} ]
                  | _, _, None => None
                  end in
                match lines with
                | Some lines =>
                    journalEntry <- journalEntry_create
                      {| jed_entryNumber := entryNumber;
                         jed_date := req_now req;
                         jed_description :=
                           ("Payment "
                              ++ (if InvoiceType_eqb (inv_type invoice) RECEIVABLE
                                  then "received" else "made")
                              ++ " for " ++ inv_invoiceNumber invoice)%string;
                         jed_createdById := req_userId req;
                         jed_status := Some APPROVED;
                         jed_approvedAt := Some (req_now req);
                         jed_lines := lines |} ;;
                    match inv_type invoice, arAccount, apAccount with
                    | RECEIVABLE, Some arAccount, _ =>
                        account_update_increment (acc_id cashAccount) paymentAmountNum ;;;
                        account_update_decrement (acc_id arAccount) paymentAmountNum
                    | _, _, Some apAccount =>
                        account_update_decrement (acc_id apAccount) paymentAmountNum ;;;
                        account_update_decrement (acc_id cashAccount) paymentAmountNum
                    | _, _, None => ret tt
                    end ;;;
                    auditLog_create (req_userId req) "CREATE" "JournalEntry"
                      (je_id journalEntry)
                      [("type", JString "PAYMENT");
                       ("invoiceId", JRef (inv_id invoice));
                       ("amount", JNumber paymentAmountNum)]
                | None => ret tt
                end
              else ret tt
          | None => ret tt
          end ;;;
          auditLog_create (req_userId req) "CREATE" "Payment" (pay_id payment)
            [("invoiceId", JRef (inv_id invoice));
             ("amount", JNumber paymentAmount);
             ("method", optString (rpb_method body))] ;;;
          ret payment
  end.

Record UpdateInvoiceBody := {
  uib_status : option InvoiceStatus;
  uib_dueDate : option Date
}.

Definition invoiceStatusName (st : InvoiceStatus) : string :=
  match st with
  | INVOICE_DRAFT => "DRAFT"
  | SENT => "SENT"
  | PAID => "PAID"
  | PARTIAL => "PARTIAL"
  | OVERDUE => "OVERDUE"
  | CANCELLED => "CANCELLED"
  end.

(** The audit payload [{ changes: req.body }] is flattened to dotted keys. *)
Definition updateInvoice (req : Req) (id : Id) (body : UpdateInvoiceBody)
  : M Invoice :=
  invoice <- invoice_findUnique id ;;
  match invoice with
  | None => throw {| err_message := Msg "Invoice not found";
                     err_statusCode := 404 |}
  | Some invoice =>
      if InvoiceStatus_eqb (inv_status invoice) PAID
      then throw {| err_message := Msg "Cannot update a paid invoice";
                    err_statusCode := 400 |}
      else
        updatedInvoice <- invoice_update id
          (match uib_status body with
           | Some status => status
           | None => inv_status invoice
           end)
          (match uib_dueDate body with
           | Some dueDate => dueDate
           | None => inv_dueDate invoice
           end) ;;
        auditLog_create (req_userId req) "UPDATE" "Invoice" (inv_id invoice)
          [("changes.status",
            match uib_status body with
            | Some status => JString (invoiceStatusName status)
            | None => JUndefined
            end);
           ("changes.dueDate",
            match uib_dueDate body with
            | Some dueDate => JNumber (inject_Z dueDate)
            | None => JUndefined
            end)] ;;;
        ret updatedInvoice
  end.

Definition deleteInvoice (req : Req) (id : Id) : M unit :=
  invoice <- invoice_findUnique_payments id ;;
  match invoice with
  | None => throw {| err_message := Msg "Invoice not found";
                     err_statusCode := 404 |}
  | Some (invoice, invoicePayments) =>
      if (0 <? List.length invoicePayments)%nat
      then throw {| err_message := Msg "Cannot delete invoice with payments";
                    err_statusCode := 400 |}
      else
        invoice_delete id ;;;
        auditLog_create (req_userId req) "DELETE" "Invoice" (inv_id invoice) [] ;;;
        ret tt
  end.

Record PaymentSummary := {
  ps_total : Q;
  ps_paid : Q;
  ps_remaining : Q
}.

Definition getInvoicePayments (id : Id) : M (list Payment * PaymentSummary) :=
  invoice <- invoice_findUnique_payments_desc id ;;
  match invoice with
  | None => throw {| err_message := Msg "Invoice not found";
                     err_statusCode := 404 |}
  | Some (invoice, invoicePayments) =>
      let totalPaid := sumPayments invoicePayments in
      let remaining := inv_total invoice - totalPaid in
      ret (invoicePayments,
           {| ps_total := inv_total invoice;
              ps_paid := totalPaid;
              ps_remaining := remaining |})
  end.

End InvoiceController.

(** ** payment.controller.ts *)

Module PaymentController.
Import Prisma PrismaInvoicing.

Definition generatePaymentNumber (req : Req) : M string :=
  count <- payment_count ;;
  ret (formatNumber "PAY" (req_year req) count).

Record CreatePaymentBody := {
  cpb_invoiceId : Id;
  cpb_amount : Q;
  cpb_paymentDate : Date;
  cpb_paymentMethod : option string;
  cpb_reference : option string;
  cpb_currency : option string
}.

(** [invoice.payments.reduce((sum, payment) =>
      sum.plus(new Decimal(payment.amount)), new Decimal(0))] *)
Definition paidAmountOf (ps : list Payment) : Q :=
  fold_left (fun sum payment => sum + pay_amount payment) ps 0.

Definition createPayment (req : Req) (body : CreatePaymentBody) : M Payment :=
  let invoiceId := cpb_invoiceId body in
  let amount := cpb_amount body in
  invoice <- invoice_findUnique_payments invoiceId ;;
  match invoice with
  | None => throw {| err_message := Msg "Invoice not found";
                     err_statusCode := 404 |}
  | Some (invoice, invoicePayments) =>
      let paidAmount := paidAmountOf invoicePayments in
      let remainingAmount := inv_total invoice - paidAmount in
      if Qltb remainingAmount amount
      then throw {| err_message :=
                      MsgDecimal "Payment amount exceeds remaining balance of "
                                 remainingAmount;
                    err_statusCode := 400 |}
      else
        paymentNumber <- generatePaymentNumber req ;;
        payment <- payment_create
                     {| pd_paymentNumber := paymentNumber;
                        pd_invoiceId := invoiceId;
                        pd_vendorId := inv_vendorId invoice;
                        pd_customerId := inv_customerId invoice;
                        pd_amount := amount;
                        pd_currency :=
                          Some (orDefault (cpb_currency body) (inv_currency invoice));
                        pd_paymentDate := cpb_paymentDate body;
                        pd_paymentMethod := cpb_paymentMethod body;
                        pd_reference := cpb_reference body |} ;;
        let newPaidAmount := paidAmount + amount in
        let newStatus :=
          if Qeq_bool newPaidAmount (inv_total invoice) then PAID else PARTIAL in
        invoice_update_status invoiceId newStatus ;;;
        cashFlow_create (cpb_paymentDate body)
          (if InvoiceType_eqb (inv_type invoice) RECEIVABLE then INFLOW else OUTFLOW)
          (if InvoiceType_eqb (inv_type invoice) RECEIVABLE
           then "Customer Payment" else "Vendor Payment")
          amount
          ("Payment for " ++ inv_invoiceNumber invoice)%string ;;;
        auditLog_create (req_userId req) "CREATE" "Payment" (pay_id payment)
          [("paymentNumber", JString paymentNumber);
           ("invoiceId", JRef invoiceId);
           ("amount", JNumber amount)] ;;;
        ret payment
  end.

End PaymentController.

(** ** report.controller.ts *)

(** [s.toLowerCase()], on the ASCII letters. *)
Definition lowerChar (c : ascii) : ascii :=
  let n := nat_of_ascii c in
  if (65 <=? n)%nat && (n <=? 90)%nat then ascii_of_nat (n + 32) else c.

Fixpoint toLowerCase (s : string) : string :=
  match s with
  | EmptyString => EmptyString
  | String c rest => String (lowerChar c) (toLowerCase rest)
  end.

(** [s.startsWith(p)] *)
Definition startsWith (s p : string) : bool := String.prefix p s.

(** [s.includes(p)] *)
Fixpoint includes (s p : string) : bool :=
  String.prefix p s
  || match s with
     | EmptyString => false
     | String _ rest => includes rest p
     end.

Module ReportController.
Import Prisma.

(** Position of a type in the [account_type] enumeration, the key of
    [orderBy: { type: 'asc' }]. *)
Definition typeRank (t : AccountType) : nat :=
  match t with
  | ASSET => 0 | LIABILITY => 1 | EQUITY => 2 | REVENUE => 3 | EXPENSE => 4
  end.

Definition accountLeb (a b : Account) : bool :=
  (typeRank (acc_type a) <? typeRank (acc_type b))%nat
  || ((typeRank (acc_type a) =? typeRank (acc_type b))%nat
      && String.leb (acc_code a) (acc_code b)).

Fixpoint insertSorted (a : Account) (l : list Account) : list Account :=
  match l with
  | [] => [a]
  | b :: rest => if accountLeb a b then a :: l else b :: insertSorted a rest
  end.

(** [orderBy: [{ type: 'asc' }, { code: 'asc' }]] *)
Definition orderByTypeCode (l : list Account) : list Account :=
  fold_right insertSorted [] l.

(** [l.reduce((sum, a) => sum + Number(a.balance), 0)] *)
Definition sumBalances (l : list Account) : Q :=
  fold_left (fun sum a => sum + acc_balance a) l 0.

Record Item := { it_code : string; it_name : string; it_balance : Q }.

Definition toItem (a : Account) : Item :=
  {| it_code := acc_code a; it_name := acc_name a; it_balance := acc_balance a |}.

Record Section_ := { sec_items : list Item; sec_total : Q }.

Definition section (l : list Account) : Section_ :=
  {| sec_items := map toItem l; sec_total := sumBalances l |}.

Record BalanceSheet := {
  bs_asOfDate : Date;
  bs_currentAssets : Section_;
  bs_fixedAssets : Section_;
  bs_totalAssets : Q;
  bs_currentLiabilities : Section_;
  bs_longTermLiabilities : Section_;
  bs_totalLiabilities : Q;
  bs_equityItems : list Item;
  bs_totalEquity : Q;
  bs_totalLiabilitiesAndEquity : Q;
  bs_isBalanced : bool
}.

Definition nameHas (a : Account) (w : string) : bool :=
  includes (toLowerCase (acc_name a)) w.

Definition getBalanceSheet (req : Req) (date : option Date) : M BalanceSheet :=
  let asOfDate := match date with Some d => d | None => req_now req end in
  accounts <- account_findMany_active ;;
  let accounts := orderByTypeCode accounts in
  let assets := filter (fun a => AccountType_eqb (acc_type a) ASSET) accounts in
  let liabilities := filter (fun a => AccountType_eqb (acc_type a) LIABILITY) accounts in
  let equity := filter (fun a => AccountType_eqb (acc_type a) EQUITY) accounts in
  let totalAssets := sumBalances assets in
  let totalLiabilities := sumBalances liabilities in
  let totalEquity := sumBalances equity in
  let currentAssets :=
    filter (fun a =>
              startsWith (acc_code a) "1001" || startsWith (acc_code a) "1002"
              || startsWith (acc_code a) "1003"
              || nameHas a "receivable" || nameHas a "cash"
              || nameHas a "inventory") assets in
  let fixedAssets :=
    filter (fun a =>
              startsWith (acc_code a) "1004" || startsWith (acc_code a) "1005"
              || nameHas a "equipment" || nameHas a "property"
              || nameHas a "vehicle") assets in
  let currentLiabilities :=
    filter (fun a =>
              startsWith (acc_code a) "2001" || startsWith (acc_code a) "2002"
              || nameHas a "payable" || nameHas a "accrued") liabilities in
  let longTermLiabilities :=
    filter (fun a =>
              startsWith (acc_code a) "2003" || startsWith (acc_code a) "2004"
              || nameHas a "loan" || nameHas a "long-term") liabilities in
  ret {| bs_asOfDate := asOfDate;
         bs_currentAssets := section currentAssets;
         bs_fixedAssets := section fixedAssets;
         bs_totalAssets := totalAssets;
         bs_currentLiabilities := section currentLiabilities;
         bs_longTermLiabilities := section longTermLiabilities;
         bs_totalLiabilities := totalLiabilities;
         bs_equityItems := map toItem equity;
         bs_totalEquity := totalEquity;
         bs_totalLiabilitiesAndEquity := totalLiabilities + totalEquity;
         bs_isBalanced :=
           Qltb (Qabs (totalAssets - (totalLiabilities + totalEquity))) (1 # 100) |}.

Record ProfitLoss := {
  pl_startDate : Date;
  pl_endDate : Date;
  pl_revenue : Section_;
  pl_costOfGoodsSold : Section_;
  pl_grossProfit : Q;
  pl_operatingExpenses : Section_;
  pl_operatingIncome : Q;
  pl_netIncome : Q;
  pl_profitMargin : Q
}.

(** [account.findMany({ where: { isActive: true,
      type: { in: ['REVENUE', 'EXPENSE'] } } })] *)
Definition account_findMany_active_revenue_expense : M (list Account) :=
  fun s =>
    (s, Ok (filter (fun a =>
                      acc_isActive a
                      && (AccountType_eqb (acc_type a) REVENUE
                          || AccountType_eqb (acc_type a) EXPENSE))
                   (accounts s))).

(** The [profitMargin] field is the exact percentage; its rendering with
    [toFixed(2)] is not modelled. *)
Definition getProfitLoss (req : Req) (startDate endDate : option Date)
  : M ProfitLoss :=
  let start := match startDate with Some d => d | None => req_startOfYear req end in
  let end_ := match endDate with Some d => d | None => req_now req end in
  accounts <- account_findMany_active_revenue_expense ;;
  let accounts := orderByTypeCode accounts in
  let revenue := filter (fun a => AccountType_eqb (acc_type a) REVENUE) accounts in
  let expenses := filter (fun a => AccountType_eqb (acc_type a) EXPENSE) accounts in
  let totalRevenue := sumBalances revenue in
  let totalExpenses := sumBalances expenses in
  let costOfGoodsSold :=
    filter (fun a => nameHas a "cost" || nameHas a "material" || nameHas a "labor")
           expenses in
  let operatingExpenses :=
    filter (fun a => negb (nameHas a "cost") && negb (nameHas a "material")
                     && negb (nameHas a "labor"))
           expenses in
  let cogsTotal := sumBalances costOfGoodsSold in
  let operatingTotal := sumBalances operatingExpenses in
  let netIncome := totalRevenue - totalExpenses in
  ret {| pl_startDate := start;
         pl_endDate := end_;
         pl_revenue := section revenue;
         pl_costOfGoodsSold := section costOfGoodsSold;
         pl_grossProfit := totalRevenue - cogsTotal;
         pl_operatingExpenses := section operatingExpenses;
         pl_operatingIncome := totalRevenue - cogsTotal - operatingTotal;
         pl_netIncome := netIncome;
         pl_profitMargin :=
           if Qltb 0 totalRevenue then (netIncome / totalRevenue) * 100 else 0 |}.

Record CashFlowItem := {
  cfi_date : Date;
  cfi_description : string;
  cfi_amount : Q;
  cfi_type : CashFlowType
}.

Record CashFlowSection := { cfs_items : list CashFlowItem; cfs_total : Q }.

Record CashFlowStatement := {
  cs_startDate : Date;
  cs_endDate : Date;
  cs_operatingActivities : CashFlowSection;
  cs_investingActivities : CashFlowSection;
  cs_financingActivities : CashFlowSection;
  cs_netCashChange : Q;
  cs_beginningCash : Q;
  cs_endingCash : Q
}.

Fixpoint insertByDate (cf : CashFlow) (l : list CashFlow) : list CashFlow :=
  match l with
  | [] => [cf]
  | x :: rest =>
      if (cf_date cf <=? cf_date x)%Z then cf :: l else x :: insertByDate cf rest
  end.

(** [cashFlow.findMany({ where: { date: { gte: start, lte: end } },
      orderBy: { date: 'asc' } })] *)
Definition cashFlow_findMany_between (start end_ : Date) : M (list CashFlow) :=
  fun s =>
    (s, Ok (fold_right insertByDate []
              (filter (fun cf => (start <=? cf_date cf)%Z
                                 && (cf_date cf <=? end_)%Z)
                      (cashFlows s)))).

(** [account.findFirst({ where: { type: 'ASSET',
      OR: [{ name: { contains: 'Cash', mode: 'insensitive' } },
           { code: '1001' }] } })] *)
Definition account_findFirst_cash : M (option Account) :=
  fun s =>
    (s, Ok (find (fun a =>
                    AccountType_eqb (acc_type a) ASSET
                    && (includes (toLowerCase (acc_name a)) "cash"
                        || String.eqb (acc_code a) "1001"))
                 (accounts s))).

(** [cf.type === 'INFLOW' ? Number(cf.amount) : -Number(cf.amount)] *)
Definition signedAmount (cf : CashFlow) : Q :=
  match cf_type cf with
  | INFLOW => cf_amount cf
  | OUTFLOW => - cf_amount cf
  end.

Definition calculateTotal (items : list CashFlow) : Q :=
  fold_left (fun sum cf => sum + signedAmount cf) items 0.

Definition activities (items : list CashFlow) : CashFlowSection :=
  {| cfs_items :=
       map (fun cf => {| cfi_date := cf_date cf;
                         cfi_description := cf_description cf;
                         cfi_amount := signedAmount cf;
                         cfi_type := cf_type cf |}) items;
     cfs_total := calculateTotal items |}.

Definition getCashFlowStatement (req : Req) (startDate endDate : option Date)
  : M CashFlowStatement :=
  let start := match startDate with Some d => d | None => req_startOfYear req end in
  let end_ := match endDate with Some d => d | None => req_now req end in
  cashFlows <- cashFlow_findMany_between start end_ ;;
  let operating := filter (fun cf => String.eqb (cf_category cf) "OPERATING") cashFlows in
  let investing := filter (fun cf => String.eqb (cf_category cf) "INVESTING") cashFlows in
  let financing := filter (fun cf => String.eqb (cf_category cf) "FINANCING") cashFlows in
  let operatingTotal := calculateTotal operating in
  let investingTotal := calculateTotal investing in
  let financingTotal := calculateTotal financing in
  let netCashChange := operatingTotal + investingTotal + financingTotal in
  cashAccount <- account_findFirst_cash ;;
  let beginningCash :=
    match cashAccount with
    | Some cashAccount => acc_balance cashAccount - netCashChange
    | None => 0
    end in
  let endingCash := beginningCash + netCashChange in
  ret {| cs_startDate := start;
         cs_endDate := end_;
         cs_operatingActivities := activities operating;
         cs_investingActivities := activities investing;
         cs_financingActivities := activities financing;
         cs_netCashChange := netCashChange;
         cs_beginningCash := beginningCash;
         cs_endingCash := endingCash |}.

End ReportController.

(** * Specification vocabulary *)

Import Prisma JournalController PrismaInvoicing InvoiceController
       PaymentController ReportController.

(** ** Reading the database *)

Definition findAccount (s : Store) (id : Id) : option Account :=
  find (fun a => acc_id a =? id) (accounts s).

Definition findAccountByCode (s : Store) (code : string) : option Account :=
  find (fun a => String.eqb (acc_code a) code) (accounts s).

Definition findEntry (s : Store) (id : Id) : option JournalEntry :=
  find (fun e => je_id e =? id) (journalEntries s).

Definition findInvoice (s : Store) (id : Id) : option Invoice :=
  find (fun i => inv_id i =? id) (invoices s).

(** The normal-balance rule, by cases on the five account types. *)
Definition signedDelta (t : AccountType) (debit credit : Q) : Q :=
  match t with
  | ASSET | EXPENSE => debit - credit
  | LIABILITY | EQUITY | REVENUE => credit - debit
  end.

(** Successive increments of a balance by the deltas of the lines that post
    to account [i]. *)
Definition postLines (t : AccountType) (i : Id) (lines : list JournalLine)
           (balance : Q) : Q :=
  fold_left (fun b l => b + signedDelta t (jl_debit l) (jl_credit l))
            (filter (fun l => jl_accountId l =? i) lines) balance.



Definition approvedAudit (req : Req) (id : Id) (logs : list AuditLog) : AuditLog :=
  {| al_id := freshId (map al_id logs); al_userId := req_userId req;
     al_action := "APPROVE"; al_entity := "JournalEntry";
     al_entityId := id; al_details := [] |}.


Definition cannotApprove : AppError :=
  {| err_message := Msg "Entry cannot be approved"; err_statusCode := 400 |}.

Definition entryNotFound : AppError :=
  {| err_message := Msg "Journal entry not found"; err_statusCode := 404 |}.

Definition terminal (st : EntryStatus) : Prop := st = APPROVED \/ st = REJECTED.

Definition rejectedAudit (req : Req) (id : Id) (reason : Json)
           (logs : list AuditLog) : AuditLog :=
  {| al_id := freshId (map al_id logs); al_userId := req_userId req;
     al_action := "REJECT"; al_entity := "JournalEntry";
     al_entityId := id; al_details := [("reason", reason)] |}.

(** [e] with its status replaced and every other column kept. *)
Definition withStatus (st : EntryStatus) (e : JournalEntry) : JournalEntry :=
  {| je_id := je_id e; je_entryNumber := je_entryNumber e;
     je_date := je_date e; je_description := je_description e;
     je_status := st; je_createdById := je_createdById e;
     je_approvedAt := je_approvedAt e |}.

(** *** Nested creation of lines *)

Definition lineData (l : JournalLine) : JournalLineData :=
  {| jld_accountId := jl_accountId l; jld_debit := jl_debit l;
     jld_credit := jl_credit l; jld_description := jl_description l |}.






(** ** Frame reasoning for handlers *)

(** Whatever its outcome, [m] moves the database along [R]. *)
Definition preserves (R : Store -> Store -> Prop) {A} (m : M A) : Prop :=
  forall s, R s (fst (m s)).

(** Once an entry is APPROVED or REJECTED it stays one of the two. *)
Definition staysTerminal (s s' : Store) : Prop :=
  forall id e, findEntry s id = Some e -> terminal (je_status e) ->
               exists e', findEntry s' id = Some e' /\ terminal (je_status e').

Definition sameOn {T} (f : Store -> T) (s s' : Store) : Prop := f s' = f s.

(** Every invoice keeps its total. *)
Definition keepsTotals (s s' : Store) : Prop :=
  forall id inv, findInvoice s id = Some inv ->
                 exists inv', findInvoice s' id = Some inv'
                              /\ inv_total inv' = inv_total inv.


(** ** Sequences of requests *)

Inductive Call :=
| CreateJournalEntry (req : Req) (body : CreateBody)
| ApproveJournalEntry (req : Req) (id : Id)
| RejectJournalEntry (req : Req) (id : Id) (reason : Json)
| CreateInvoice (req : Req) (body : CreateInvoiceBody)
| RecordPayment (req : Req) (id : Id) (body : RecordPaymentBody)
| CreatePayment (req : Req) (body : CreatePaymentBody)
| GetBalanceSheet (req : Req) (date : option Date)
| GetProfitLoss (req : Req) (startDate endDate : option Date).

Definition succeeded {A} (o : Outcome A) : bool :=
  match o with
  | Ok _ => true
  | Throw _ => false
  end.

Definition observe {A} (r : Store * Outcome A) : Store * bool :=
  (fst r, succeeded (snd r)).

(** The database after a request, and whether it was answered with success. *)
Definition exec (c : Call) (s : Store) : Store * bool :=
  match c with
  | CreateJournalEntry req body => observe (createJournalEntry req body s)
  | ApproveJournalEntry req id => observe (approveJournalEntry req id s)
  | RejectJournalEntry req id reason => observe (rejectJournalEntry req id reason s)
  | CreateInvoice req body => observe (createInvoice req body s)
  | RecordPayment req id body => observe (recordPayment req id body s)
  | CreatePayment req body => observe (createPayment req body s)
  | GetBalanceSheet req date => observe (getBalanceSheet req date s)
  | GetProfitLoss req startDate endDate =>
      observe (getProfitLoss req startDate endDate s)
  end.

Definition isApprovalOf (id : Id) (c : Call) : bool :=
  match c with
  | ApproveJournalEntry _ id' => id' =? id
  | _ => false
  end.

(** How many times the balance-application loop ran for entry [id] through
    [approveJournalEntry] while [calls] were served from [s]. *)
Fixpoint approvals (id : Id) (calls : list Call) (s : Store) : nat :=
  match calls with
  | [] => 0
  | c :: rest =>
      ((if isApprovalOf id c && snd (exec c s) then 1 else 0)
       + approvals id rest (fst (exec c s)))%nat
  end.

(** The two lines of a posting of [amount]: a debit of [debitId], a credit of
    [creditId]. *)
Definition postingPair (debitId creditId : Id) (amount : Q)
           (debitNote creditNote : string) : list JournalLineData :=
  [ {| jld_accountId := debitId; jld_debit := amount; jld_credit := 0;
       jld_description := Some debitNote |};
    {| jld_accountId := creditId; jld_debit := 0; jld_credit := amount;
       jld_description := Some creditNote |} ].

(** The total that [createInvoice] computes for a request. *)
Definition invoiceTotal (body : CreateInvoiceBody) : Q :=
  subtotalOf (cib_items body) + subtotalOf (cib_items body) * 0.


(** ** Payments against an invoice *)

(** A handler that answers with success answers with a value in [P]. *)
Definition yields {A} (P : A -> Prop) (m : M A) : Prop :=
  forall s s' a, m s = (s', Ok a) -> P a.

Definition recordedPayment (req : Req) (id : Id) (body : RecordPaymentBody)
           (s : Store) : Payment :=
  {| pay_id := freshId (map pay_id (payments s));
     pay_paymentNumber :=
       formatNumber "PAY" (req_year req) (List.length (payments s));
     pay_invoiceId := id;
     pay_vendorId := None;
     pay_customerId := None;
     pay_amount := rpb_amount body;
     pay_currency := "USD";
     pay_paymentDate := req_now req;
     pay_paymentMethod := Some (orDefault (rpb_method body) "BANK_TRANSFER");
     pay_reference := rpb_reference body |}.


Definition createdPayment (req : Req) (body : CreatePaymentBody)
           (inv : Invoice) (s : Store) : Payment :=
  {| pay_id := freshId (map pay_id (payments s));
     pay_paymentNumber :=
       formatNumber "PAY" (req_year req) (List.length (payments s));
     pay_invoiceId := cpb_invoiceId body;
     pay_vendorId := inv_vendorId inv;
     pay_customerId := inv_customerId inv;
     pay_amount := cpb_amount body;
     pay_currency := orDefault (cpb_currency body) (inv_currency inv);
     pay_paymentDate := cpb_paymentDate body;
     pay_paymentMethod := cpb_paymentMethod body;
     pay_reference := cpb_reference body |}.

(** The payments recorded against invoice [id] do not exceed its total. *)
Definition withinTotal (s : Store) (id : Id) : Prop :=
  exists inv, findInvoice s id = Some inv
              /\ sumPayments (paymentsOf s id) <= inv_total inv.

Definition run (calls : list Call) (s : Store) : Store :=
  fold_left (fun s c => fst (exec c s)) calls s.


(** ** The posting made by a payment *)

Definition counterpartCode (t : InvoiceType) : string :=
  match t with
  | RECEIVABLE => "1100"
  | PAYABLE => "2000"
  end.

(** Cash debit and AR credit for a customer payment, AP debit and cash
    credit for a vendor payment. *)
Definition paymentPair (t : InvoiceType) (cashId otherId : Id) (amount : Q)
           (invoiceNumber : string) : list JournalLineData :=
  match t with
  | RECEIVABLE =>
      postingPair cashId otherId amount
                  ("Payment received - " ++ invoiceNumber)
                  ("AR reduction - " ++ invoiceNumber)
  | PAYABLE =>
      postingPair otherId cashId amount
                  ("AP reduction - " ++ invoiceNumber)
                  ("Payment made - " ++ invoiceNumber)
  end.


(** ** A small ledger to run the handlers on *)

Definition account (id : Id) (code name : string) (t : AccountType) : Account :=
  {| acc_id := id; acc_code := code; acc_name := name; acc_type := t;
     acc_balance := 0; acc_currency := "USD"; acc_isActive := true |}.

Definition chart : list Account :=
  [ account 1 "1000" "Cash" ASSET;
    account 2 "1100" "Accounts Receivable" ASSET;
    account 3 "2000" "Accounts Payable" LIABILITY;
    account 4 "4100" "Service Revenue" REVENUE;
    account 5 "5000" "Cost of Goods Sold" EXPENSE ].

Definition ledgerOf (accts : list Account) : Store :=
  {| accounts := accts; journalEntries := []; journalLines := [];
     invoices := []; invoiceItems := []; payments := []; cashFlows := [];
     auditLogs := [] |}.

Definition emptyLedger : Store := ledgerOf chart.

Definition clerk : Req :=
  {| req_userId := 7; req_now := 1767268800000; req_year := 2026;
     req_startOfYear := 1767225600000 |}.

(** A manual entry: debit AR 500, credit Service Revenue 500. *)
Definition manual500 : CreateBody :=
  {| cb_date := 1767268800000;
     cb_description := "Retainer";
     cb_lines :=
       [ {| li_accountId := 2; li_debit := 500; li_credit := 0;
            li_description := None |};
         {| li_accountId := 4; li_debit := 0; li_credit := 500;
            li_description := None |} ] |}.


Definition ledgerDraft : Store := fst (createJournalEntry clerk manual500 emptyLedger).


Definition ledgerApproved : Store := fst (approveJournalEntry clerk 1 ledgerDraft).

(** A customer invoice of 1000. *)
Definition invoice1000 : CreateInvoiceBody :=
  {| cib_type := RECEIVABLE; cib_vendorId := None; cib_customerId := Some 1%nat;
     cib_projectId := None; cib_issueDate := 1767268800000;
     cib_dueDate := 1769860800000; cib_currency := None;
     cib_items :=
       [ {| ii_description := "Site survey"; ii_quantity := 1;
            ii_unitPrice := 1000 |} ] |}.

Definition ledgerInvoiced : Store := fst (createInvoice clerk invoice1000 emptyLedger).

(** The chart without its Cash account. *)
Definition ledgerNoCash : Store :=
  fst (createInvoice clerk invoice1000 (ledgerOf (tl chart))).

Definition pay400 : RecordPaymentBody :=
  {| rpb_amount := 400; rpb_method := None; rpb_reference := None |}.

Definition pay1001 : RecordPaymentBody :=
  {| rpb_amount := 1001; rpb_method := None; rpb_reference := None |}.

Definition payment400 : CreatePaymentBody :=
  {| cpb_invoiceId := 1; cpb_amount := 400;
     cpb_paymentDate := 1767355200000; cpb_paymentMethod := Some "CHECK";
     cpb_reference := None; cpb_currency := None |}.

Definition approvedEntry : JournalEntry :=
  {| je_id := 1; je_entryNumber := "JE-2026-00001";
     je_date := 1767268800000; je_description := "Retainer";
     je_status := APPROVED; je_createdById := 7;
     je_approvedAt := Some 1767268800000%Z |}.

Definition issuedInvoice : Invoice :=
  {| inv_id := 1; inv_invoiceNumber := "INV-2026-00001";
     inv_type := RECEIVABLE; inv_customerId := Some 1%nat;
     inv_vendorId := None; inv_projectId := None;
     inv_issueDate := 1767268800000; inv_dueDate := 1769860800000;
     inv_subtotal := subtotalOf (cib_items invoice1000);
     inv_tax := subtotalOf (cib_items invoice1000) * 0;
     inv_total := invoiceTotal invoice1000;
     inv_currency := "USD"; inv_status := INVOICE_DRAFT |}.


(** * Properties *)

Lemma balanceChange_signedDelta (a : Account) (l : JournalLine) :
  balanceChange a l = signedDelta (acc_type a) (jl_debit l) (jl_credit l).
Proof. unfold balanceChange, signedDelta. destruct (acc_type a); reflexivity. Qed.

Lemma find_some_exists {A} (p : A -> bool) (l : list A) (x : A) :
  find p l = Some x -> existsb p l = true.
Proof.
  intros H. apply existsb_exists. exists x.
  apply find_some in H. exact H.
Qed.

Lemma find_account_after_increment (j : Id) (d : Q) (l : list Account) (i : Id) :
  find (fun a => acc_id a =? i)
       (map (fun a => if acc_id a =? j then incrementBalance d a else a) l)
  = option_map (fun a => if acc_id a =? j then incrementBalance d a else a)
               (find (fun a => acc_id a =? i) l).
Proof.
  induction l as [|a l IH]; simpl; [reflexivity|].
  destruct (acc_id a =? j) eqn:Ej; simpl; destruct (acc_id a =? i); simpl;
    try rewrite Ej; auto.
Qed.

(** One turn of the loop of [approveJournalEntry]. *)
Lemma applyLine_spec (l : JournalLine) (s : Store) :
  exists s',
    applyLine l s = (s', Ok tt)
    /\ journalEntries s' = journalEntries s
    /\ journalLines s' = journalLines s
    /\ invoices s' = invoices s
    /\ invoiceItems s' = invoiceItems s
    /\ payments s' = payments s
    /\ cashFlows s' = cashFlows s
    /\ auditLogs s' = auditLogs s
    /\ forall i,
        findAccount s' i =
        match findAccount s i with
        | Some a =>
            Some (if jl_accountId l =? i
                  then incrementBalance
                         (signedDelta (acc_type a) (jl_debit l) (jl_credit l)) a
                  else a)
        | None => None
        end.
Proof.
  unfold applyLine, bind, account_findUnique_id, account_update_increment, ret.
  destruct (find (fun a => acc_id a =? jl_accountId l) (accounts s)) as [acct|] eqn:F.
  - rewrite (@find_some_exists _ _ _ _ F).
    eexists; split; [reflexivity|]. simpl. repeat (split; [reflexivity|]).
    intros i. unfold findAccount. simpl.
    rewrite find_account_after_increment.
    destruct (find (fun a => acc_id a =? i) (accounts s)) as [a|] eqn:Fi; simpl;
      [|reflexivity].
    pose proof (find_some _ _ Fi) as [_ Hi]. apply Nat.eqb_eq in Hi.
    rewrite Hi. clear Hi. rewrite (Nat.eqb_sym i).
    destruct (jl_accountId l =? i)%nat eqn:E; [|reflexivity].
    apply Nat.eqb_eq in E. subst i.
    rewrite F in Fi. injection Fi as ->.
    now rewrite balanceChange_signedDelta.
  - eexists; split; [reflexivity|]. repeat (split; [reflexivity|]).
    intros i. unfold findAccount.
    destruct (find (fun a => acc_id a =? i) (accounts s)) as [a|] eqn:Fi; [|reflexivity].
    destruct (jl_accountId l =? i)%nat eqn:E; [|reflexivity].
    apply Nat.eqb_eq in E. subst i. congruence.
Qed.

(** The whole loop. *)
Lemma forOf_applyLine_spec (lines : list JournalLine) :
  forall s, exists s',
    forOf lines applyLine s = (s', Ok tt)
    /\ journalEntries s' = journalEntries s
    /\ journalLines s' = journalLines s
    /\ invoices s' = invoices s
    /\ invoiceItems s' = invoiceItems s
    /\ payments s' = payments s
    /\ cashFlows s' = cashFlows s
    /\ auditLogs s' = auditLogs s
    /\ forall i,
        match findAccount s i with
        | Some a =>
            exists a', findAccount s' i = Some a'
                       /\ acc_id a' = acc_id a
                       /\ acc_code a' = acc_code a
                       /\ acc_name a' = acc_name a
                       /\ acc_type a' = acc_type a
                       /\ acc_isActive a' = acc_isActive a
                       /\ acc_balance a' = postLines (acc_type a) i lines (acc_balance a)
        | None => findAccount s' i = None
        end.
Proof.
  induction lines as [|l lines IH]; intros s.
  - exists s. simpl. unfold ret. repeat (split; [reflexivity|]).
    intros i. destruct (findAccount s i) as [a|]; [|reflexivity].
    exists a. repeat (split; [reflexivity|]). reflexivity.
  - destruct (applyLine_spec l s) as (s1 & R1 & E1 & L1 & I1 & T1 & P1 & C1 & A1 & F1).
    destruct (IH s1) as (s2 & R2 & E2 & L2 & I2 & T2 & P2 & C2 & A2 & F2).
    exists s2. simpl. unfold bind at 1. rewrite R1, R2.
    split; [reflexivity|].
    repeat (split; [congruence|]).
    intros i. specialize (F2 i). rewrite F1 in F2.
    destruct (findAccount s i) as [a|]; [|exact F2].
    destruct F2 as (a' & Fa' & Hid & Hcode & Hname & Hty & Hact & Hbal).
    exists a'. split; [exact Fa'|].
    unfold postLines in *. simpl.
    destruct (jl_accountId l =? i)%nat; simpl in *; repeat (split; [assumption|]); assumption.
Qed.



Lemma find_entry_id (s : Store) (id : Id) (e : JournalEntry) :
  findEntry s id = Some e -> je_id e = id.
Proof.
  intros H. apply find_some in H. destruct H as [_ H].
  now apply Nat.eqb_eq in H.
Qed.

(** How a permitted approval unfolds: the status write, the loop, the audit
    record. *)
Lemma approve_runs (req : Req) (id : Id) (s : Store) (entry : JournalEntry) :
  findEntry s id = Some entry ->
  je_status entry = DRAFT \/ je_status entry = PENDING ->
  exists s2,
    forOf (linesOf s id) applyLine
          (setJournal s
             (map (fun e' => if je_id e' =? id
                             then updateEntry APPROVED (Some (req_now req)) e'
                             else e')
                  (journalEntries s))
             (journalLines s)) = (s2, Ok tt)
    /\ approveJournalEntry req id s =
       (setAuditLogs s2 (auditLogs s2 ++ [approvedAudit req id (auditLogs s2)]),
        Ok (updateEntry APPROVED (Some (req_now req)) entry)).
Proof.
  intros F St.
  pose proof (find_entry_id _ _ _ F) as Hid.
  destruct (forOf_applyLine_spec (linesOf s id)
              (setJournal s
                 (map (fun e' => if je_id e' =? id
                                 then updateEntry APPROVED (Some (req_now req)) e'
                                 else e')
                      (journalEntries s))
                 (journalLines s))) as (s2 & R2 & _).
  exists s2. split; [exact R2|].
  unfold approveJournalEntry, bind at 1, journalEntry_findUnique_lines.
  unfold findEntry in F. rewrite F, Hid.
  assert (G : negb (EntryStatus_eqb (je_status entry) PENDING)
              && negb (EntryStatus_eqb (je_status entry) DRAFT) = false)
    by (destruct St as [-> | ->]; reflexivity).
  rewrite G.
  unfold bind at 1, journalEntry_update. rewrite F.
  unfold bind at 1. rewrite R2.
  unfold bind, auditLog_create, ret, approvedAudit. reflexivity.
Qed.



Lemma approve_terminal_throws (req : Req) (id : Id) (s : Store) (e : JournalEntry) :
  findEntry s id = Some e -> terminal (je_status e) ->
  approveJournalEntry req id s = (s, Throw cannotApprove).
Proof.
  intros F T.
  unfold approveJournalEntry, bind, journalEntry_findUnique_lines.
  unfold findEntry in F. rewrite F.
  destruct T as [-> | ->]; reflexivity.
Qed.

Lemma approve_missing_throws (req : Req) (id : Id) (s : Store) :
  findEntry s id = None ->
  approveJournalEntry req id s = (s, Throw entryNotFound).
Proof.
  intros F.
  unfold approveJournalEntry, bind, journalEntry_findUnique_lines.
  unfold findEntry in F. rewrite F. reflexivity.
Qed.

Lemma approve_ok_inv (req : Req) (id : Id) (s s' : Store) (u : JournalEntry) :
  approveJournalEntry req id s = (s', Ok u) ->
  exists e, findEntry s id = Some e
            /\ (je_status e = DRAFT \/ je_status e = PENDING).
Proof.
  intros H.
  destruct (findEntry s id) as [e|] eqn:F.
  - exists e. split; [reflexivity|].
    destruct (je_status e) eqn:St; auto.
    + rewrite (approve_terminal_throws req id s e F) in H; [discriminate|].
      left; exact St.
    + rewrite (approve_terminal_throws req id s e F) in H; [discriminate|].
      right; exact St.
  - rewrite (approve_missing_throws req id s F) in H. discriminate.
Qed.

Lemma find_entry_after_update (id : Id) (st : EntryStatus) (at_ : option Date)
      (l : list JournalEntry) (i : Id) :
  find (fun e => je_id e =? i)
       (map (fun e => if je_id e =? id then updateEntry st at_ e else e) l)
  = option_map (fun e => if je_id e =? id then updateEntry st at_ e else e)
               (find (fun e => je_id e =? i) l).
Proof.
  induction l as [|a l IH]; simpl; [reflexivity|].
  destruct (je_id a =? id) eqn:Ej; simpl; destruct (je_id a =? i); simpl;
    try rewrite Ej; auto.
Qed.

(** After a permitted approval the entry is APPROVED in the database. *)
Lemma approve_marks_approved (req : Req) (id : Id) (s : Store) (entry : JournalEntry) :
  findEntry s id = Some entry ->
  je_status entry = DRAFT \/ je_status entry = PENDING ->
  findEntry (fst (approveJournalEntry req id s)) id
  = Some (updateEntry APPROVED (Some (req_now req)) entry).
Proof.
  intros F St.
  destruct (approve_runs req id s entry F St) as (s2 & R2 & ->). simpl.
  destruct (forOf_applyLine_spec (linesOf s id)
              (setJournal s
                 (map (fun e' => if je_id e' =? id
                                 then updateEntry APPROVED (Some (req_now req)) e'
                                 else e')
                      (journalEntries s))
                 (journalLines s))) as (s2' & R2' & HE & _).
  rewrite R2 in R2'. injection R2' as <-.
  unfold findEntry. simpl. rewrite HE. simpl.
  rewrite (find_entry_after_update id APPROVED (Some (req_now req))).
  unfold findEntry in F. rewrite F. simpl.
  rewrite (find_entry_id s id entry F), Nat.eqb_refl. reflexivity.
Qed.

(** What [rejectJournalEntry] does to an entry it finds, whatever its status. *)
Lemma reject_runs (req : Req) (id : Id) (reason : Json) (s : Store) (entry : JournalEntry) :
  findEntry s id = Some entry ->
  rejectJournalEntry req id reason s =
  ({| accounts := accounts s;
      journalEntries :=
        map (fun e => if je_id e =? id then withStatus REJECTED e else e)
            (journalEntries s);
      journalLines := journalLines s;
      invoices := invoices s;
      invoiceItems := invoiceItems s;
      payments := payments s;
      cashFlows := cashFlows s;
      auditLogs := auditLogs s ++ [rejectedAudit req id reason (auditLogs s)] |},
   Ok (withStatus REJECTED entry)).
Proof.
  intros F.
  pose proof (find_entry_id _ _ _ F) as Hid.
  unfold rejectJournalEntry, bind, journalEntry_findUnique, journalEntry_update,
    auditLog_create, ret.
  unfold findEntry in F. rewrite F. cbv beta iota. rewrite F. simpl.
  rewrite Hid. reflexivity.
Qed.

Lemma reject_missing_throws (req : Req) (id : Id) (reason : Json) (s : Store) :
  findEntry s id = None ->
  rejectJournalEntry req id reason s = (s, Throw entryNotFound).
Proof.
  intros F.
  unfold rejectJournalEntry, bind, journalEntry_findUnique.
  unfold findEntry in F. rewrite F. reflexivity.
Qed.

(** C10.  [rejectJournalEntry] on an existing entry, whatever its status,
    sets the status of that entry to REJECTED and appends one audit record;
    the accounts and every other table are untouched.  In particular a
    rejection after an approval leaves the balances as the approval posted
    them, with the entry marked REJECTED. *)
Theorem reject_changes_status_only
        (req : Req) (id : Id) (reason : Json) (s : Store) (entry : JournalEntry) :
  findEntry s id = Some entry ->
  let s' := fst (rejectJournalEntry req id reason s) in
  snd (rejectJournalEntry req id reason s) = Ok (withStatus REJECTED entry)
  /\ accounts s' = accounts s
  /\ journalEntries s'
     = map (fun e => if je_id e =? id then withStatus REJECTED e else e)
           (journalEntries s)
  /\ findEntry s' id = Some (withStatus REJECTED entry)
  /\ journalLines s' = journalLines s
  /\ invoices s' = invoices s
  /\ invoiceItems s' = invoiceItems s
  /\ payments s' = payments s
  /\ cashFlows s' = cashFlows s
  /\ auditLogs s' = auditLogs s ++ [rejectedAudit req id reason (auditLogs s)]
  /\ (forall req0 : Req,
         je_status entry = DRAFT \/ je_status entry = PENDING ->
         let s1 := fst (approveJournalEntry req0 id s) in
         let s2 := fst (rejectJournalEntry req id reason s1) in
         accounts s2 = accounts s1
         /\ option_map je_status (findEntry s1 id) = Some APPROVED
         /\ option_map je_status (findEntry s2 id) = Some REJECTED).
Proof.
  intros F s'. subst s'. rewrite (reject_runs req id reason s entry F). simpl.
  assert (Hfind : forall s0 e0, findEntry s0 id = Some e0 ->
            find (fun e => je_id e =? id)
                 (map (fun e => if je_id e =? id then withStatus REJECTED e else e)
                      (journalEntries s0)) = Some (withStatus REJECTED e0)).
  { intros s0 e0 F0.
    change (fun e => if je_id e =? id then withStatus REJECTED e else e)
      with (fun e => if je_id e =? id then updateEntry REJECTED None e else e).
    rewrite (find_entry_after_update id REJECTED None).
    unfold findEntry in F0. rewrite F0. simpl.
    rewrite (find_entry_id s0 id e0 F0), Nat.eqb_refl. reflexivity. }
  repeat (split; [reflexivity|]).
  split; [exact (Hfind s entry F)|].
  repeat (split; [reflexivity|]).
  intros req0 St.
  pose proof (approve_marks_approved req0 id s entry F St) as F1.
  rewrite (reject_runs req id reason _ _ F1). simpl.
  split; [reflexivity|]. split.
  - rewrite F1. reflexivity.
  - unfold findEntry at 1. simpl. rewrite (Hfind _ _ F1). reflexivity.
Qed.




(** *** Decimal comparisons *)

Lemma Qltb_true (a b : Q) : Qltb a b = true <-> a < b.
Proof.
  unfold Qltb. rewrite negb_true_iff.
  split; intros H.
  - apply Qnot_le_lt. intros L. apply Qle_bool_iff in L. congruence.
  - destruct (Qle_bool b a) eqn:E; [|reflexivity].
    apply Qle_bool_iff in E. exfalso. exact (Qlt_not_le _ _ H E).
Qed.

Lemma Qltb_false (a b : Q) : Qltb a b = false <-> b <= a.
Proof.
  unfold Qltb. rewrite negb_false_iff. apply Qle_bool_iff.
Qed.

(** *** Fresh keys *)


Lemma find_key_append {A} (key : A -> Id) (l : list A) (x : A) (i : Id) :
  find (fun a => key a =? i) (l ++ [x])
  = match find (fun a => key a =? i) l with
    | Some a => Some a
    | None => if key x =? i then Some x else None
    end.
Proof.
  induction l as [|a l IH]; simpl; [reflexivity|].
  destruct (key a =? i); [reflexivity|exact IH].
Qed.







Section Preserves.
Variable R : Store -> Store -> Prop.
Hypothesis R_refl : forall s, R s s.
Hypothesis R_trans : forall a b c, R a b -> R b c -> R a c.

Lemma preserves_ret {A} (a : A) : preserves R (ret a).
Proof. intros s. apply R_refl. Qed.

Lemma preserves_throw {A} (e : AppError) : preserves R (@throw A e).
Proof. intros s. apply R_refl. Qed.

Lemma preserves_bind {A B} (m : M A) (k : A -> M B) :
  preserves R m -> (forall a, preserves R (k a)) -> preserves R (bind m k).
Proof.
  intros Hm Hk s. unfold bind. specialize (Hm s).
  destruct (m s) as [s1 [a|e]]; simpl in *.
  - eapply R_trans; [exact Hm|apply Hk].
  - exact Hm.
Qed.

Lemma preserves_forOf {A} (l : list A) (body : A -> M unit) :
  (forall x, preserves R (body x)) -> preserves R (forOf l body).
Proof.
  intros Hb. induction l as [|x l IH]; simpl.
  - apply preserves_ret.
  - apply preserves_bind; [apply Hb|intros _; exact IH].
Qed.
End Preserves.

Lemma staysTerminal_refl (s : Store) : staysTerminal s s.
Proof. intros id e F T. exists e. split; assumption. Qed.

Lemma staysTerminal_trans (a b c : Store) :
  staysTerminal a b -> staysTerminal b c -> staysTerminal a c.
Proof.
  intros H1 H2 id e F T.
  destruct (H1 id e F T) as (e1 & F1 & T1). exact (H2 id e1 F1 T1).
Qed.

Lemma staysTerminal_same_entries (s s' : Store) :
  journalEntries s' = journalEntries s -> staysTerminal s s'.
Proof.
  intros E id e F T. exists e. unfold findEntry in *. rewrite E. split; assumption.
Qed.

Lemma staysTerminal_create (d : JournalEntryData) :
  preserves staysTerminal (journalEntry_create d).
Proof.
  intros s id e F T. exists e. split; [|exact T].
  unfold findEntry in *. simpl. rewrite (find_key_append je_id), F. reflexivity.
Qed.

Lemma staysTerminal_update (id : Id) (st : EntryStatus) (at_ : option Date) :
  terminal st -> preserves staysTerminal (journalEntry_update id st at_).
Proof.
  intros Tst s i e F T. unfold journalEntry_update.
  destruct (find (fun e0 => je_id e0 =? id) (journalEntries s)) eqn:Fid; simpl.
  - unfold findEntry in *. simpl. rewrite find_entry_after_update, F. simpl.
    eexists. split; [reflexivity|].
    destruct (je_id e =? id); [exact Tst|exact T].
  - exists e. split; assumption.
Qed.

Lemma sameOn_refl {T} (f : Store -> T) (s : Store) : sameOn f s s.
Proof. reflexivity. Qed.

Lemma sameOn_trans {T} (f : Store -> T) (a b c : Store) :
  sameOn f a b -> sameOn f b c -> sameOn f a c.
Proof. unfold sameOn. congruence. Qed.

Lemma keepsTotals_refl (s : Store) : keepsTotals s s.
Proof. intros id inv F. exists inv. split; [exact F|reflexivity]. Qed.

Lemma keepsTotals_trans (a b c : Store) :
  keepsTotals a b -> keepsTotals b c -> keepsTotals a c.
Proof.
  intros H1 H2 id inv F.
  destruct (H1 id inv F) as (i1 & F1 & T1).
  destruct (H2 id i1 F1) as (i2 & F2 & T2).
  exists i2. split; [exact F2|congruence].
Qed.

Lemma keepsTotals_same_invoices (s s' : Store) :
  invoices s' = invoices s -> keepsTotals s s'.
Proof.
  intros E id inv F. exists inv. unfold findInvoice in *. rewrite E.
  split; [exact F|reflexivity].
Qed.

Lemma keepsTotals_create (d : InvoiceData) :
  preserves keepsTotals (invoice_create d).
Proof.
  intros s id inv F. exists inv. split; [|reflexivity].
  unfold findInvoice in *. simpl. rewrite (find_key_append inv_id), F. reflexivity.
Qed.

Lemma find_invoice_after_status (id : Id) (st : InvoiceStatus)
      (l : list Invoice) (i : Id) :
  find (fun x => inv_id x =? i)
       (map (fun x => if inv_id x =? id then setInvoiceStatus st x else x) l)
  = option_map (fun x => if inv_id x =? id then setInvoiceStatus st x else x)
               (find (fun x => inv_id x =? i) l).
Proof.
  induction l as [|a l IH]; simpl; [reflexivity|].
  destruct (inv_id a =? id) eqn:Ej; simpl; destruct (inv_id a =? i); simpl;
    try rewrite Ej; auto.
Qed.

Lemma keepsTotals_status (id : Id) (st : InvoiceStatus) :
  preserves keepsTotals (invoice_update_status id st).
Proof.
  intros s i inv F. unfold invoice_update_status.
  destruct (existsb (fun x => inv_id x =? id) (invoices s)); simpl.
  - unfold findInvoice in *. simpl. rewrite find_invoice_after_status, F. simpl.
    eexists. split; [reflexivity|].
    destruct (inv_id inv =? id); reflexivity.
  - exists inv. split; [exact F|reflexivity].
Qed.

Create HintDb frame.

#[local] Hint Resolve keepsTotals_refl keepsTotals_create keepsTotals_status : frame.

#[local] Hint Resolve staysTerminal_refl staysTerminal_create : frame.
#[local] Hint Extern 1 (preserves staysTerminal (journalEntry_update _ APPROVED _)) =>
  apply staysTerminal_update; left; reflexivity : frame.
#[local] Hint Extern 1 (preserves staysTerminal (journalEntry_update _ REJECTED _)) =>
  apply staysTerminal_update; right; reflexivity : frame.

(** A primitive that does not write a table leaves it as it was. *)
Ltac untouched :=
  let s := fresh "s" in
  intros s;
  cbv [Prisma.account_findUnique_id Prisma.account_findUnique_code
       Prisma.account_update_increment Prisma.account_update_decrement
       Prisma.account_findMany_active Prisma.journalEntry_count
       Prisma.journalEntry_findUnique Prisma.journalEntry_findUnique_lines
       Prisma.journalEntry_create Prisma.journalEntry_update
       Prisma.auditLog_create
       PrismaInvoicing.invoice_count_type PrismaInvoicing.invoice_create
       PrismaInvoicing.invoice_findUnique_payments
       PrismaInvoicing.invoice_update_status PrismaInvoicing.payment_count
       PrismaInvoicing.payment_create PrismaInvoicing.cashFlow_create
       ReportController.account_findMany_active_revenue_expense];
  repeat match goal with
         | |- context [match ?x with _ => _ end] => destruct x
         end;
  first [ apply staysTerminal_same_entries
        | apply keepsTotals_same_invoices
        | unfold sameOn ];
  reflexivity.

(** Walk through a handler: one rule per construct of the monad. *)
Ltac frame R_refl R_trans :=
  repeat first
    [ apply (preserves_bind _ R_trans); [|intro]
    | apply (preserves_ret _ R_refl)
    | apply (preserves_throw _ R_refl)
    | apply (preserves_forOf _ R_refl R_trans); intro
    | progress cbv zeta
    | solve [auto with frame]
    | solve [untouched]
    | match goal with
      | |- preserves _ (match ?x with _ => _ end) => destruct x
      | |- preserves _ (if ?b then _ else _) => destruct b
      end ].

Lemma approve_staysTerminal (req : Req) (id : Id) :
  preserves staysTerminal (approveJournalEntry req id).
Proof.
  unfold approveJournalEntry, applyLine.
  frame staysTerminal_refl staysTerminal_trans.
Qed.


Lemma exec_staysTerminal (c : Call) (s : Store) : staysTerminal s (fst (exec c s)).
Proof.
  destruct c; unfold exec, observe; cbn [fst]; revert s;
    match goal with
    | |- forall s, staysTerminal s (fst (?m s)) =>
        change (preserves staysTerminal m)
    end.
  - unfold createJournalEntry, generateEntryNumber.
    frame staysTerminal_refl staysTerminal_trans.
  - apply approve_staysTerminal.
  - unfold rejectJournalEntry.
    frame staysTerminal_refl staysTerminal_trans.
  - unfold createInvoice, generateInvoiceNumber, generateJournalEntryNumber.
    frame staysTerminal_refl staysTerminal_trans.
  - unfold recordPayment, generateJournalEntryNumber.
    frame staysTerminal_refl staysTerminal_trans.
  - unfold createPayment, generatePaymentNumber.
    frame staysTerminal_refl staysTerminal_trans.
  - unfold getBalanceSheet.
    frame staysTerminal_refl staysTerminal_trans.
  - unfold getProfitLoss.
    frame staysTerminal_refl staysTerminal_trans.
Qed.

Lemma no_approval_once_terminal (id : Id) (calls : list Call) :
  forall s e, findEntry s id = Some e -> terminal (je_status e) ->
              approvals id calls s = 0%nat.
Proof.
  induction calls as [|c rest IH]; intros s e F T; simpl; [reflexivity|].
  destruct (exec_staysTerminal c s id e F T) as (e' & F' & T').
  rewrite (IH _ e' F' T').
  destruct c; try reflexivity.
  unfold isApprovalOf, exec, observe. cbn [snd].
  destruct (id0 =? id) eqn:E; [|reflexivity].
  apply Nat.eqb_eq in E. subst id0.
  rewrite (approve_terminal_throws req id s e F T). reflexivity.
Qed.

Lemma approvals_at_most_once (id : Id) (calls : list Call) :
  forall s, (approvals id calls s <= 1)%nat.
Proof.
  induction calls as [|c rest IH]; intros s; simpl; [lia|].
  destruct (isApprovalOf id c && snd (exec c s)) eqn:E.
  - apply andb_prop in E. destruct E as [Ea Es].
    destruct c; simpl in Ea; try discriminate.
    apply Nat.eqb_eq in Ea. subst id0.
    unfold exec, observe in *. cbn [fst snd] in *.
    destruct (approveJournalEntry req id s) as [s' [u|err]] eqn:R;
      cbn [fst snd succeeded] in *; [|discriminate].
    destruct (approve_ok_inv req id s s' u R) as (e & F & St).
    pose proof (approve_marks_approved req id s e F St) as F'.
    rewrite R in F'. simpl in F'.
    rewrite (no_approval_once_terminal id rest s' _ F'); [lia|].
    left; reflexivity.
  - specialize (IH (fst (exec c s))). lia.
Qed.

(** C3.  [approveJournalEntry] succeeds only on an entry whose status is
    DRAFT or PENDING.  On an APPROVED or REJECTED entry it throws "Entry
    cannot be approved" and leaves the database, hence every account balance,
    exactly as it was.  Over any sequence of requests to the handlers of this
    file the approval of a given entry, and with it the balance application,
    succeeds at most once. *)
Theorem approve_requires_draft_or_pending (req : Req) (id : Id) (s : Store) :
  (forall s' u, approveJournalEntry req id s = (s', Ok u) ->
     exists e, findEntry s id = Some e
               /\ (je_status e = DRAFT \/ je_status e = PENDING))
  /\ (forall e, findEntry s id = Some e ->
        je_status e = APPROVED \/ je_status e = REJECTED ->
        approveJournalEntry req id s = (s, Throw cannotApprove)
        /\ forall i, findAccount (fst (approveJournalEntry req id s)) i
                     = findAccount s i)
  /\ (forall calls, (approvals id calls s <= 1)%nat).
Proof.
  split; [|split].
  - apply approve_ok_inv.
  - intros e F T.
    rewrite (approve_terminal_throws req id s e F T). split; reflexivity.
  - intros calls. apply approvals_at_most_once.
Qed.



(** ** Stepping through a handler *)

Lemma bind_ok {A B} (m : M A) (k : A -> M B) (s s1 : Store) (a : A) :
  m s = (s1, Ok a) -> bind m k s = k a s1.
Proof. intros H. unfold bind. rewrite H. reflexivity. Qed.

Lemma bind_throw {A B} (m : M A) (k : A -> M B) (s s1 : Store) (e : AppError) :
  m s = (s1, Throw e) -> bind m k s = (s1, Throw e).
Proof. intros H. unfold bind. rewrite H. reflexivity. Qed.

(** Projections of the argument records of the client, reduced after each
    step to keep the terms small. *)
Ltac project_data :=
  cbn [jed_entryNumber jed_date jed_description jed_createdById jed_status
       jed_approvedAt jed_lines
       ivd_invoiceNumber ivd_type ivd_vendorId ivd_customerId ivd_projectId
       ivd_issueDate ivd_dueDate ivd_subtotal ivd_tax ivd_total ivd_currency
       ivd_items
       pd_paymentNumber pd_invoiceId pd_vendorId pd_customerId pd_amount
       pd_currency pd_paymentDate pd_paymentMethod pd_reference].

Ltac step := erewrite bind_ok by reflexivity; project_data.

(** *** Accounts *)

Lemma account_update_increment_ok (id : Id) (d : Q) (s : Store) :
  existsb (fun a => acc_id a =? id) (accounts s) = true ->
  account_update_increment id d s
  = (setAccounts s
       (map (fun a => if acc_id a =? id then incrementBalance d a else a)
            (accounts s)),
     Ok tt).
Proof. intros H. unfold account_update_increment. rewrite H. reflexivity. Qed.

Lemma existsb_after_increment (j : Id) (d : Q) (l : list Account) (i : Id) :
  existsb (fun a => acc_id a =? i)
          (map (fun a => if acc_id a =? j then incrementBalance d a else a) l)
  = existsb (fun a => acc_id a =? i) l.
Proof.
  induction l as [|a l IH]; simpl; [reflexivity|].
  rewrite IH. destruct (acc_id a =? j); reflexivity.
Qed.

Lemma find_code_after_increment (j : Id) (d : Q) (l : list Account) (c : string) :
  find (fun a => String.eqb (acc_code a) c)
       (map (fun a => if acc_id a =? j then incrementBalance d a else a) l)
  = option_map (fun a => if acc_id a =? j then incrementBalance d a else a)
               (find (fun a => String.eqb (acc_code a) c) l).
Proof.
  induction l as [|a l IH]; simpl; [reflexivity|].
  destruct (acc_id a =? j) eqn:Ej; simpl; destruct (String.eqb (acc_code a) c);
    simpl; try rewrite Ej; auto.
Qed.

Lemma found_by_code (s : Store) (c : string) (a : Account) :
  findAccountByCode s c = Some a ->
  In a (accounts s) /\ acc_code a = c
  /\ existsb (fun x => acc_id x =? acc_id a) (accounts s) = true.
Proof.
  intros F. apply find_some in F. destruct F as [Hin Hc].
  apply String.eqb_eq in Hc. repeat split; try assumption.
  apply existsb_exists. exists a. split; [exact Hin|apply Nat.eqb_refl].
Qed.



Lemma insertLines_two (entryId : Id) (d1 d2 : JournalLineData)
      (tbl : list JournalLine) :
  insertLines entryId [d1; d2] tbl
  = tbl ++ [ mkLine (freshId (map jl_id tbl)) entryId d1;
             mkLine (freshId
                       (map jl_id
                            (tbl ++ [mkLine (freshId (map jl_id tbl)) entryId d1])))
                    entryId d2 ].
Proof. simpl. rewrite <- app_assoc. reflexivity. Qed.



Lemma yields_ret {A} (P : A -> Prop) (a : A) : P a -> yields P (ret a).
Proof. intros H s s' x E. unfold ret in E. congruence. Qed.

Lemma yields_bind {A B} (P : B -> Prop) (m : M A) (k : A -> M B) :
  (forall a, yields P (k a)) -> yields P (bind m k).
Proof.
  intros Hk s s' b E. unfold bind in E.
  destruct (m s) as [s1 [a|e]]; [exact (Hk a s1 s' b E)|discriminate].
Qed.

Lemma paymentsOf_append (s s' : Store) (p : Payment) (id : Id) :
  payments s' = payments s ++ [p] ->
  paymentsOf s' id
  = paymentsOf s id ++ (if pay_invoiceId p =? id then [p] else []).
Proof.
  intros E. unfold paymentsOf. rewrite E, filter_app. reflexivity.
Qed.

Lemma sumPayments_append (ps : list Payment) (p : Payment) :
  sumPayments (ps ++ [p]) = sumPayments ps + pay_amount p.
Proof. unfold sumPayments. rewrite fold_left_app. reflexivity. Qed.

Lemma find_invoice_id (s : Store) (id : Id) (inv : Invoice) :
  findInvoice s id = Some inv -> inv_id inv = id.
Proof.
  intros H. apply find_some in H. destruct H as [_ H].
  now apply Nat.eqb_eq in H.
Qed.

(** The ways a call of [recordPayment] can go. *)
Lemma recordPayment_cases (req : Req) (id : Id) (body : RecordPaymentBody) (s : Store) :
  (exists e, recordPayment req id body s = (s, Throw e)
             /\ (findInvoice s id = None
                 \/ exists inv, findInvoice s id = Some inv
                      /\ err_statusCode e = 400%nat
                      /\ (inv_status inv = PAID
                          \/ inv_total inv - sumPayments (paymentsOf s id)
                             < rpb_amount body)))
  \/ (exists inv,
         findInvoice s id = Some inv
         /\ inv_status inv <> PAID
         /\ rpb_amount body <= inv_total inv - sumPayments (paymentsOf s id)
         /\ payments (fst (recordPayment req id body s))
            = payments s ++ [recordedPayment req id body s]
         /\ keepsTotals s (fst (recordPayment req id body s))
         /\ forall p, snd (recordPayment req id body s) = Ok p ->
                      p = recordedPayment req id body s).
Proof.
  unfold recordPayment.
  destruct (findInvoice s id) as [inv|] eqn:F.
  - pose proof (find_invoice_id s id inv F) as Hid.
    step. unfold findInvoice in F. rewrite F. cbv beta iota. rewrite Hid.
    destruct (InvoiceStatus_eqb (inv_status inv) PAID) eqn:St.
    { left. eexists. split; [reflexivity|]. right. exists inv.
      split; [reflexivity|]. split; [reflexivity|]. left.
      destruct (inv_status inv); try discriminate. reflexivity. }
    cbv zeta.
    destruct (Qltb (inv_total inv - sumPayments (paymentsOf s id)) (rpb_amount body))
      eqn:G.
    { left. eexists. split; [reflexivity|]. right. exists inv.
      split; [reflexivity|]. split; [reflexivity|]. right.
      apply Qltb_true. exact G. }
    right. exists inv. split; [reflexivity|]. split.
    { intros E. rewrite E in St. discriminate. }
    split; [apply Qltb_false; exact G|].
    do 2 step.
    match goal with
    | |- context [fst (?m ?s1)] =>
        assert (Hpay : preserves (sameOn payments) m);
        [|assert (Htot : preserves keepsTotals m);
          [|assert (Hval : yields (fun p => p = recordedPayment req id body s) m)]]
    end.
    + unfold generateJournalEntryNumber.
      frame (@sameOn_refl (list Payment) payments)
            (@sameOn_trans (list Payment) payments).
    + unfold generateJournalEntryNumber.
      frame keepsTotals_refl keepsTotals_trans.
    + repeat (apply yields_bind; intro). apply yields_ret. reflexivity.
    + split; [|split].
      * rewrite Hpay. reflexivity.
      * eapply keepsTotals_trans; [|apply Htot].
        apply keepsTotals_same_invoices. reflexivity.
      * intros p E.
        match goal with
        | E : snd (?m ?s1) = Ok p |- _ =>
            destruct (m s1) as [s2 o] eqn:R; simpl in E; subst o;
            exact (Hval _ _ _ R)
        end.
  - left. eexists. split; [|left; reflexivity].
    step. unfold findInvoice in F. rewrite F. reflexivity.
Qed.


(** The ways a call of [createPayment] can go. *)
Lemma createPayment_cases (req : Req) (body : CreatePaymentBody) (s : Store) :
  (exists e, createPayment req body s = (s, Throw e)
             /\ (findInvoice s (cpb_invoiceId body) = None
                 \/ exists inv, findInvoice s (cpb_invoiceId body) = Some inv
                      /\ err_statusCode e = 400%nat
                      /\ inv_total inv
                         - sumPayments (paymentsOf s (cpb_invoiceId body))
                         < cpb_amount body))
  \/ (exists inv,
         findInvoice s (cpb_invoiceId body) = Some inv
         /\ cpb_amount body
            <= inv_total inv - sumPayments (paymentsOf s (cpb_invoiceId body))
         /\ payments (fst (createPayment req body s))
            = payments s ++ [createdPayment req body inv s]
         /\ keepsTotals s (fst (createPayment req body s))
         /\ forall p, snd (createPayment req body s) = Ok p ->
                      p = createdPayment req body inv s).
Proof.
  unfold createPayment. cbv zeta.
  destruct (findInvoice s (cpb_invoiceId body)) as [inv|] eqn:F.
  - pose proof (find_invoice_id s _ inv F) as Hid.
    step. unfold findInvoice in F. rewrite F. cbv beta iota. rewrite Hid.
    change (paidAmountOf (paymentsOf s (cpb_invoiceId body)))
      with (sumPayments (paymentsOf s (cpb_invoiceId body))).
    destruct (Qltb (inv_total inv - sumPayments (paymentsOf s (cpb_invoiceId body)))
                   (cpb_amount body)) eqn:G.
    { left. eexists. split; [reflexivity|]. right. exists inv.
      split; [reflexivity|]. split; [reflexivity|].
      apply Qltb_true. exact G. }
    right. exists inv. split; [reflexivity|].
    split; [apply Qltb_false; exact G|].
    unfold generatePaymentNumber.
    do 2 step.
    match goal with
    | |- context [fst (?m ?s1)] =>
        assert (Hpay : preserves (sameOn payments) m);
        [|assert (Htot : preserves keepsTotals m);
          [|assert (Hval : yields (fun p => p = createdPayment req body inv s) m)]]
    end.
    + frame (@sameOn_refl (list Payment) payments)
            (@sameOn_trans (list Payment) payments).
    + frame keepsTotals_refl keepsTotals_trans.
    + repeat (apply yields_bind; intro). apply yields_ret. reflexivity.
    + split; [|split].
      * rewrite Hpay. reflexivity.
      * eapply keepsTotals_trans; [|apply Htot].
        apply keepsTotals_same_invoices. reflexivity.
      * intros p E.
        match goal with
        | E : snd (?m ?s1) = Ok p |- _ =>
            destruct (m s1) as [s2 o] eqn:R; simpl in E; subst o;
            exact (Hval _ _ _ R)
        end.
  - left. eexists. split; [|left; reflexivity].
    step. unfold findInvoice in F. rewrite F. reflexivity.
Qed.

Lemma withinTotal_frame (s s' : Store) (id : Id) :
  payments s' = payments s -> keepsTotals s s' ->
  withinTotal s id -> withinTotal s' id.
Proof.
  intros Ep Ht (inv & F & L).
  destruct (Ht id inv F) as (inv' & F' & T').
  exists inv'. split; [exact F'|].
  unfold paymentsOf. rewrite Ep, T'. exact L.
Qed.

Lemma withinTotal_after_payment (s s' : Store) (id id' : Id) (inv' : Invoice)
      (p : Payment) :
  findInvoice s id' = Some inv' ->
  pay_invoiceId p = id' ->
  pay_amount p <= inv_total inv' - sumPayments (paymentsOf s id') ->
  payments s' = payments s ++ [p] -> keepsTotals s s' ->
  withinTotal s id -> withinTotal s' id.
Proof.
  intros F' Hp Hle Ep Ht (inv & F & L).
  destruct (Ht id inv F) as (inv1 & F1 & T1).
  exists inv1. split; [exact F1|].
  rewrite (paymentsOf_append s s' p id Ep), Hp, T1.
  destruct (id' =? id) eqn:E.
  - apply Nat.eqb_eq in E. rewrite E in F', Hle.
    rewrite F in F'. injection F' as <-.
    rewrite sumPayments_append. lra.
  - rewrite app_nil_r. exact L.
Qed.

Lemma paid_within_total (s s' : Store) (id : Id) (inv : Invoice) (p : Payment) :
  findInvoice s id = Some inv ->
  pay_invoiceId p = id ->
  pay_amount p <= inv_total inv - sumPayments (paymentsOf s id) ->
  payments s' = payments s ++ [p] -> keepsTotals s s' ->
  withinTotal s' id.
Proof.
  intros F Hp Hle Ep Ht.
  destruct (Ht id inv F) as (inv1 & F1 & T1).
  exists inv1. split; [exact F1|].
  rewrite (paymentsOf_append s s' p id Ep), Hp, Nat.eqb_refl, T1.
  rewrite sumPayments_append. lra.
Qed.

(** Turns the two premises of [withinTotal_frame] into frame goals. *)
Ltac as_frames :=
  match goal with
  | |- ?f (fst (?m ?s)) = ?f ?s =>
      revert s; change (preserves (sameOn f) m)
  | |- keepsTotals ?s (fst (?m ?s)) =>
      revert s; change (preserves keepsTotals m)
  end.

Ltac frame_payments :=
  frame (@sameOn_refl (list Payment) payments)
        (@sameOn_trans (list Payment) payments).

Ltac frame_totals := frame keepsTotals_refl keepsTotals_trans.

Lemma exec_withinTotal (c : Call) (s : Store) (id : Id) :
  withinTotal s id -> withinTotal (fst (exec c s)) id.
Proof.
  intros W.
  destruct c; unfold exec, observe; cbn [fst].
  - apply (withinTotal_frame s); [| |exact W]; clear W; as_frames;
      unfold createJournalEntry, generateEntryNumber;
      [frame_payments|frame_totals].
  - apply (withinTotal_frame s); [| |exact W]; clear W; as_frames;
      unfold approveJournalEntry, applyLine;
      [frame_payments|frame_totals].
  - apply (withinTotal_frame s); [| |exact W]; clear W; as_frames;
      unfold rejectJournalEntry;
      [frame_payments|frame_totals].
  - apply (withinTotal_frame s); [| |exact W]; clear W; as_frames;
      unfold createInvoice, generateInvoiceNumber, generateJournalEntryNumber;
      [frame_payments|frame_totals].
  - destruct (recordPayment_cases req id0 body s)
      as [(e & -> & _) | (inv & F & _ & Hle & Ep & Ht & _)]; [exact W|].
    exact (withinTotal_after_payment s _ id id0 inv
             (recordedPayment req id0 body s) F eq_refl Hle Ep Ht W).
  - destruct (createPayment_cases req body s)
      as [(e & -> & _) | (inv & F & Hle & Ep & Ht & _)]; [exact W|].
    exact (withinTotal_after_payment s _ id _ inv
             (createdPayment req body inv s) F eq_refl Hle Ep Ht W).
  - exact W.
  - exact W.
Qed.

Lemma run_withinTotal (calls : list Call) :
  forall s id, withinTotal s id -> withinTotal (run calls s) id.
Proof.
  induction calls as [|c rest IH]; intros s id W; simpl; [exact W|].
  apply IH. apply exec_withinTotal. exact W.
Qed.

(** C5.  On both payment paths a payment larger than the remaining balance
    of the invoice is refused with a 400 error and the database is unchanged:
    no payment, no journal entry, no change of a balance or of the invoice
    status.  After a payment that succeeds the payments of the invoice sum to
    at most its total, and the bound, once it holds for an invoice, holds
    after any sequence of requests to the handlers of this file. *)
Theorem payments_never_exceed_total :
  (forall req id body s inv,
      findInvoice s id = Some inv ->
      inv_total inv - sumPayments (paymentsOf s id) < rpb_amount body ->
      exists e, recordPayment req id body s = (s, Throw e)
                /\ err_statusCode e = 400%nat)
  /\ (forall req body s inv,
         findInvoice s (cpb_invoiceId body) = Some inv ->
         inv_total inv - sumPayments (paymentsOf s (cpb_invoiceId body))
         < cpb_amount body ->
         exists e, createPayment req body s = (s, Throw e)
                   /\ err_statusCode e = 400%nat)
  /\ (forall req id body s s' p,
         recordPayment req id body s = (s', Ok p) -> withinTotal s' id)
  /\ (forall req body s s' p,
         createPayment req body s = (s', Ok p) ->
         withinTotal s' (cpb_invoiceId body))
  /\ (forall calls s id, withinTotal s id -> withinTotal (run calls s) id).
Proof.
  split; [|split; [|split; [|split]]].
  - intros req id body s inv F Hlt.
    destruct (recordPayment_cases req id body s)
      as [(e & R & [N | (inv' & F' & C & _)]) | (inv' & F' & _ & Hle & _)].
    + congruence.
    + exists e. split; assumption.
    + rewrite F in F'. injection F' as <-. exfalso.
      exact (Qlt_not_le _ _ Hlt Hle).
  - intros req body s inv F Hlt.
    destruct (createPayment_cases req body s)
      as [(e & R & [N | (inv' & F' & C & _)]) | (inv' & F' & Hle & _)].
    + congruence.
    + exists e. split; assumption.
    + rewrite F in F'. injection F' as <-. exfalso.
      exact (Qlt_not_le _ _ Hlt Hle).
  - intros req id body s s' p R.
    destruct (recordPayment_cases req id body s)
      as [(e & R' & _) | (inv & F & _ & Hle & Ep & Ht & _)].
    + congruence.
    + rewrite R in Ep, Ht. simpl in Ep, Ht.
      exact (paid_within_total s s' id inv
               (recordedPayment req id body s) F eq_refl Hle Ep Ht).
  - intros req body s s' p R.
    destruct (createPayment_cases req body s)
      as [(e & R' & _) | (inv & F & Hle & Ep & Ht & _)].
    + congruence.
    + rewrite R in Ep, Ht. simpl in Ep, Ht.
      exact (paid_within_total s s' _ inv
               (createdPayment req body inv s) F eq_refl Hle Ep Ht).
  - intros calls s id. apply run_withinTotal.
Qed.


Lemma invoice_update_status_ok (id : Id) (st : InvoiceStatus) (s : Store) :
  existsb (fun i => inv_id i =? id) (invoices s) = true ->
  invoice_update_status id st s
  = (setInvoices s
       (map (fun i => if inv_id i =? id then setInvoiceStatus st i else i)
            (invoices s))
       (invoiceItems s),
     Ok tt).
Proof. intros H. unfold invoice_update_status. rewrite H. reflexivity. Qed.

Lemma status_not_paid (st : InvoiceStatus) :
  st <> PAID -> InvoiceStatus_eqb st PAID = false.
Proof. destruct st; intros H; try reflexivity. contradiction. Qed.

Lemma find_invoice_updated (s : Store) (id : Id) (inv : Invoice) (st : InvoiceStatus) :
  findInvoice s id = Some inv ->
  find (fun x => inv_id x =? id)
       (map (fun x => if inv_id x =? id then setInvoiceStatus st x else x)
            (invoices s))
  = Some (setInvoiceStatus st inv).
Proof.
  intros F. rewrite find_invoice_after_status.
  unfold findInvoice in F. rewrite F. simpl.
  rewrite (find_invoice_id s id inv F), Nat.eqb_refl. reflexivity.
Qed.

(** Runs the posting block of [recordPayment]: entry number, entry with its
    two lines, the two balance updates (on accounts known to exist by [E1]
    and [E2]), the audit record. *)
Ltac post_payment E1 E2 :=
  erewrite bind_ok;
  [| step; cbv beta iota zeta; step;
     (erewrite bind_ok;
      [| (erewrite bind_ok; [|apply account_update_increment_ok; exact E1]);
         apply account_update_increment_ok;
         cbn [accounts setAccounts setJournal setInvoices setPayments];
         rewrite existsb_after_increment; exact E2 ]);
     reflexivity ].

Ltac payment_posted s id inv F :=
  step; unfold ret; rewrite insertLines_two;
  do 4 eexists; (split; [reflexivity|]);
  cbn [payments journalEntries journalLines invoices setAccounts setJournal
       setInvoices setPayments setAuditLogs je_status je_approvedAt je_id
       fst snd];
  repeat (split; [reflexivity|]);
  unfold findInvoice; cbn [invoices];
  apply (find_invoice_updated s id inv _ F).

Lemma recordPayment_posts (req : Req) (id : Id) (body : RecordPaymentBody)
      (s : Store) (inv : Invoice) (cash other : Account) :
  findInvoice s id = Some inv ->
  inv_status inv <> PAID ->
  rpb_amount body <= inv_total inv - sumPayments (paymentsOf s id) ->
  findAccountByCode s "1000" = Some cash ->
  findAccountByCode s (counterpartCode (inv_type inv)) = Some other ->
  exists s' entry l1 l2,
    recordPayment req id body s = (s', Ok (recordedPayment req id body s))
    /\ payments s' = payments s ++ [recordedPayment req id body s]
    /\ journalEntries s' = journalEntries s ++ [entry]
    /\ je_status entry = APPROVED
    /\ je_approvedAt entry = Some (req_now req)
    /\ journalLines s' = journalLines s ++ [l1; l2]
    /\ jl_journalEntryId l1 = je_id entry
    /\ jl_journalEntryId l2 = je_id entry
    /\ map lineData [l1; l2]
       = paymentPair (inv_type inv) (acc_id cash) (acc_id other)
                     (rpb_amount body) (inv_invoiceNumber inv)
    /\ findInvoice s' id
       = Some (setInvoiceStatus
                 (if Qle_bool (inv_total inv)
                              (sumPayments (paymentsOf s id) + rpb_amount body)
                  then PAID else PARTIAL)
                 inv).
Proof.
  intros F St Hle Fcash Fother.
  pose proof (find_invoice_id s id inv F) as Hid.
  destruct (found_by_code s _ cash Fcash) as (_ & _ & Ecash).
  destruct (found_by_code s _ other Fother) as (_ & _ & Eother).
  apply status_not_paid in St. apply Qltb_false in Hle.
  unfold recordPayment, generateJournalEntryNumber.
  step. pose proof F as F0. unfold findInvoice in F0. rewrite F0.
  cbv beta iota zeta. rewrite St, Hid, Hle.
  do 2 step.
  erewrite bind_ok;
    [|apply invoice_update_status_ok;
      exact (find_some_exists _ _ _ F0)].
  do 3 step.
  cbn [accounts setInvoices setPayments].
  unfold findAccountByCode in Fcash, Fother. rewrite Fcash. cbv beta iota.
  destruct (inv_type inv) eqn:Ty; cbn [counterpartCode] in Fother.
  - rewrite Fother. cbn [isSome orb]. cbv beta iota.
    post_payment Ecash Eother.
    payment_posted s id inv F.
  - destruct (find (fun a => String.eqb (acc_code a) "1100") (accounts s))
      as [ar|] eqn:Far;
      rewrite Fother; cbn [isSome orb]; cbv beta iota;
      post_payment Eother Ecash;
      payment_posted s id inv F.
Qed.



Lemma createPayment_updates_status (req : Req) (body : CreatePaymentBody)
      (s : Store) (inv : Invoice) :
  findInvoice s (cpb_invoiceId body) = Some inv ->
  cpb_amount body
  <= inv_total inv - sumPayments (paymentsOf s (cpb_invoiceId body)) ->
  exists s',
    createPayment req body s = (s', Ok (createdPayment req body inv s))
    /\ payments s' = payments s ++ [createdPayment req body inv s]
    /\ findInvoice s' (cpb_invoiceId body)
       = Some (setInvoiceStatus
                 (if Qeq_bool (sumPayments (paymentsOf s (cpb_invoiceId body))
                               + cpb_amount body)
                              (inv_total inv)
                  then PAID else PARTIAL)
                 inv).
Proof.
  intros F Hle.
  pose proof (find_invoice_id s _ inv F) as Hid.
  apply Qltb_false in Hle.
  unfold createPayment, generatePaymentNumber. cbv zeta.
  step. pose proof F as F0. unfold findInvoice in F0. rewrite F0.
  cbv beta iota. rewrite Hid.
  change (paidAmountOf (paymentsOf s (cpb_invoiceId body)))
    with (sumPayments (paymentsOf s (cpb_invoiceId body))).
  rewrite Hle.
  do 2 step.
  erewrite bind_ok;
    [|apply invoice_update_status_ok; exact (find_some_exists _ _ _ F0)].
  do 2 step. unfold ret.
  eexists. split; [reflexivity|].
  cbn [payments invoices setInvoices setPayments setCashFlows setAuditLogs].
  split; [reflexivity|].
  unfold findInvoice. cbn [invoices].
  apply (find_invoice_updated s _ inv _ F).
Qed.

(** C6, as amended.  A [recordPayment] that passes its checks, when the Cash
    account 1000 and the counterpart account (1100 for a RECEIVABLE invoice,
    2000 for a PAYABLE one) exist, records the payment and one APPROVED
    journal entry with exactly two lines for the payment amount: cash debit
    and AR credit, or AP debit and cash credit.  On both paths a payment
    that passes the checks sets the invoice status to PAID when the
    cumulative payments reach the total and to PARTIAL otherwise. *)
Theorem payment_posts_and_updates_status :
  (forall req id body s inv cash other,
      findInvoice s id = Some inv ->
      inv_status inv <> PAID ->
      rpb_amount body <= inv_total inv - sumPayments (paymentsOf s id) ->
      findAccountByCode s "1000" = Some cash ->
      findAccountByCode s (counterpartCode (inv_type inv)) = Some other ->
      exists s' entry l1 l2,
        recordPayment req id body s = (s', Ok (recordedPayment req id body s))
        /\ payments s' = payments s ++ [recordedPayment req id body s]
        /\ journalEntries s' = journalEntries s ++ [entry]
        /\ je_status entry = APPROVED
        /\ je_approvedAt entry = Some (req_now req)
        /\ journalLines s' = journalLines s ++ [l1; l2]
        /\ jl_journalEntryId l1 = je_id entry
        /\ jl_journalEntryId l2 = je_id entry
        /\ map lineData [l1; l2]
           = paymentPair (inv_type inv) (acc_id cash) (acc_id other)
                         (rpb_amount body) (inv_invoiceNumber inv)
        /\ (exists inv',
               findInvoice s' id = Some inv'
               /\ (inv_status inv' = PAID \/ inv_status inv' = PARTIAL)
               /\ (inv_status inv' = PAID
                   <-> sumPayments (paymentsOf s id) + rpb_amount body
                       == inv_total inv)))
  /\ (forall req body s inv,
         findInvoice s (cpb_invoiceId body) = Some inv ->
         cpb_amount body
         <= inv_total inv - sumPayments (paymentsOf s (cpb_invoiceId body)) ->
         exists s',
           createPayment req body s = (s', Ok (createdPayment req body inv s))
           /\ payments s' = payments s ++ [createdPayment req body inv s]
           /\ (exists inv',
                  findInvoice s' (cpb_invoiceId body) = Some inv'
                  /\ (inv_status inv' = PAID \/ inv_status inv' = PARTIAL)
                  /\ (inv_status inv' = PAID
                      <-> sumPayments (paymentsOf s (cpb_invoiceId body))
                          + cpb_amount body
                          == inv_total inv))).
Proof.
  split.
  - intros req id body s inv cash other F St Hle Fcash Fother.
    destruct (recordPayment_posts req id body s inv cash other F St Hle Fcash Fother)
      as (s' & entry & l1 & l2 & R & P & E & A & At & L & I1 & I2 & D & Fi).
    exists s', entry, l1, l2.
    repeat (split; [assumption|]).
    eexists. split; [exact Fi|]. cbn [inv_status setInvoiceStatus].
    destruct (Qle_bool (inv_total inv)
                       (sumPayments (paymentsOf s id) + rpb_amount body)) eqn:Q.
    + split; [left; reflexivity|]. split; [|reflexivity].
      intros _. apply Qle_bool_iff in Q. apply Qle_antisym; [lra|exact Q].
    + split; [right; reflexivity|]. split; [discriminate|].
      intros H. exfalso.
      assert (Q' : Qle_bool (inv_total inv)
                     (sumPayments (paymentsOf s id) + rpb_amount body) = true)
        by (apply Qle_bool_iff; rewrite H; apply Qle_refl).
      congruence.
  - intros req body s inv F Hle.
    destruct (createPayment_updates_status req body s inv F Hle)
      as (s' & R & P & Fi).
    exists s'. split; [exact R|]. split; [exact P|].
    eexists. split; [exact Fi|]. cbn [inv_status setInvoiceStatus].
    destruct (Qeq_bool (sumPayments (paymentsOf s (cpb_invoiceId body))
                        + cpb_amount body) (inv_total inv)) eqn:Q.
    + split; [left; reflexivity|]. split; [|reflexivity].
      intros _. apply Qeq_bool_iff. exact Q.
    + split; [right; reflexivity|]. split; [discriminate|].
      intros H. apply Qeq_bool_iff in H. congruence.
Qed.

(** ** Reports *)

(** What the handler computes for [isBalanced]. *)
Lemma balanceSheet_isBalanced (req : Req) (date : option Date) (s : Store) :
  exists bs,
    getBalanceSheet req date s = (s, Ok bs)
    /\ (bs_isBalanced bs = true
        <-> Qabs (bs_totalAssets bs - (bs_totalLiabilities bs + bs_totalEquity bs))
            < 1 # 100).
Proof.
  unfold getBalanceSheet. cbv zeta. step. unfold ret.
  eexists. split; [reflexivity|].
  cbn [bs_isBalanced bs_totalAssets bs_totalLiabilities bs_totalEquity].
  apply Qltb_true.
Qed.

(** C9.  The figures of the Profit & Loss report are the same for any two
    requests over the same database, whatever their period and clock; only
    the echoed period differs.  The report does not write. *)
Theorem profitLoss_ignores_period
        (req1 req2 : Req) (start1 end1 start2 end2 : option Date) (s : Store) :
  exists p1 p2,
    getProfitLoss req1 start1 end1 s = (s, Ok p1)
    /\ getProfitLoss req2 start2 end2 s = (s, Ok p2)
    /\ pl_revenue p1 = pl_revenue p2
    /\ pl_costOfGoodsSold p1 = pl_costOfGoodsSold p2
    /\ pl_grossProfit p1 = pl_grossProfit p2
    /\ pl_operatingExpenses p1 = pl_operatingExpenses p2
    /\ pl_operatingIncome p1 = pl_operatingIncome p2
    /\ pl_netIncome p1 = pl_netIncome p2
    /\ pl_profitMargin p1 = pl_profitMargin p2
    /\ pl_startDate p1
       = match start1 with Some d => d | None => req_startOfYear req1 end
    /\ pl_endDate p1 = match end1 with Some d => d | None => req_now req1 end
    /\ pl_startDate p2
       = match start2 with Some d => d | None => req_startOfYear req2 end
    /\ pl_endDate p2 = match end2 with Some d => d | None => req_now req2 end.
Proof.
  unfold getProfitLoss. cbv zeta. do 2 step. unfold ret.
  do 2 eexists. split; [reflexivity|]. split; [reflexivity|].
  cbn [pl_revenue pl_costOfGoodsSold pl_grossProfit pl_operatingExpenses
       pl_operatingIncome pl_netIncome pl_profitMargin pl_startDate pl_endDate].
  repeat split.
Qed.



(** ** The handlers on the small ledger *)

(** C4.  [rejectJournalEntry] has no status guard.  On the entry that
    [approveJournalEntry] has just approved it answers with success and
    overwrites APPROVED with REJECTED, where the state machine of the ledger
    (APPROVED and REJECTED terminal, rejection only from DRAFT or PENDING)
    requires an invalid-transition error and an unchanged status.  The
    balances posted at approval stay. *)
Theorem reject_overwrites_approved :
  findEntry ledgerApproved 1 = Some approvedEntry
  /\ rejectJournalEntry clerk 1 (JString "Rejected by user") ledgerApproved
     = ({| accounts := accounts ledgerApproved;
           journalEntries := [withStatus REJECTED approvedEntry];
           journalLines := journalLines ledgerApproved;
           invoices := [];
           invoiceItems := [];
           payments := [];
           cashFlows := [];
           auditLogs :=
             auditLogs ledgerApproved
             ++ [rejectedAudit clerk 1 (JString "Rejected by user")
                               (auditLogs ledgerApproved)] |},
        Ok (withStatus REJECTED approvedEntry)).
Proof. split; vm_compute; reflexivity. Qed.

(** C6, counterexample.  Two payments that are created with success and
    leave the journal as it was.  [recordPayment] on a chart without the
    Cash account 1000, and [createPayment] on the full chart. *)
Lemma payment_without_journal_entry :
  (exists p,
      snd (recordPayment clerk 1 pay400 ledgerNoCash) = Ok p
      /\ journalEntries (fst (recordPayment clerk 1 pay400 ledgerNoCash))
         = journalEntries ledgerNoCash)
  /\ (exists p,
         snd (createPayment clerk payment400 ledgerInvoiced) = Ok p
         /\ journalEntries (fst (createPayment clerk payment400 ledgerInvoiced))
            = journalEntries ledgerInvoiced
         /\ accounts (fst (createPayment clerk payment400 ledgerInvoiced))
            = accounts ledgerInvoiced).
Proof.
  split; eexists; repeat split; vm_compute; reflexivity.
Qed.

(** C8.  On the ledger that [createInvoice] leaves after a customer invoice
    of 1000 (AR 1000, Service Revenue 1000) the balance sheet answers
    [isBalanced = false], although assets equal liabilities plus equity plus
    net income: the handler compares assets with liabilities plus equity
    only. *)
Theorem balanceSheet_omits_net_income :
  exists bs pl,
    getBalanceSheet clerk None ledgerInvoiced = (ledgerInvoiced, Ok bs)
    /\ getProfitLoss clerk None None ledgerInvoiced = (ledgerInvoiced, Ok pl)
    /\ bs_isBalanced bs = false
    /\ Qabs (bs_totalAssets bs
             - (bs_totalLiabilities bs + bs_totalEquity bs + pl_netIncome pl))
       < 1 # 100.
Proof.
  destruct (balanceSheet_isBalanced clerk None ledgerInvoiced) as (bs & R & _).
  exists bs.
  assert (Hbs : snd (getBalanceSheet clerk None ledgerInvoiced) = Ok bs)
    by (rewrite R; reflexivity).
  vm_compute in Hbs. injection Hbs as <-.
  eexists. split; [exact R|].
  split; [vm_compute; reflexivity|].
  split; vm_compute; reflexivity.
Qed.

(** *** The theorems at the small ledger *)



(** A second approval of the same entry is refused. *)
Lemma approve_requires_draft_or_pending_witness :
  approveJournalEntry clerk 1 ledgerApproved = (ledgerApproved, Throw cannotApprove)
  /\ forall i, findAccount (fst (approveJournalEntry clerk 1 ledgerApproved)) i
               = findAccount ledgerApproved i.
Proof.
  apply (proj1 (proj2 (approve_requires_draft_or_pending clerk 1 ledgerApproved))
               approvedEntry).
  - vm_compute. reflexivity.
  - left. reflexivity.
Defined.

(** A payment of 1001 against the invoice of 1000 is refused. *)
Lemma payments_never_exceed_total_witness :
  exists e, recordPayment clerk 1 pay1001 ledgerInvoiced = (ledgerInvoiced, Throw e)
            /\ err_statusCode e = 400%nat.
Proof.
  apply (proj1 payments_never_exceed_total clerk 1%nat pay1001 ledgerInvoiced
               issuedInvoice).
  - vm_compute. reflexivity.
  - vm_compute. reflexivity.
Defined.

(** A payment of 400 against the invoice of 1000, on the full chart. *)
Lemma payment_posts_and_updates_status_witness :
  exists s' entry l1 l2,
    recordPayment clerk 1 pay400 ledgerInvoiced
    = (s', Ok (recordedPayment clerk 1 pay400 ledgerInvoiced))
    /\ payments s'
       = payments ledgerInvoiced ++ [recordedPayment clerk 1 pay400 ledgerInvoiced]
    /\ journalEntries s' = journalEntries ledgerInvoiced ++ [entry]
    /\ je_status entry = APPROVED
    /\ je_approvedAt entry = Some (req_now clerk)
    /\ journalLines s' = journalLines ledgerInvoiced ++ [l1; l2]
    /\ jl_journalEntryId l1 = je_id entry
    /\ jl_journalEntryId l2 = je_id entry
    /\ map lineData [l1; l2]
       = paymentPair RECEIVABLE 1 2 (rpb_amount pay400) "INV-2026-00001"
    /\ (exists inv',
           findInvoice s' 1 = Some inv'
           /\ (inv_status inv' = PAID \/ inv_status inv' = PARTIAL)
           /\ (inv_status inv' = PAID
               <-> sumPayments (paymentsOf ledgerInvoiced 1) + rpb_amount pay400
                   == inv_total issuedInvoice)).
Proof.
  apply (proj1 payment_posts_and_updates_status clerk 1%nat pay400 ledgerInvoiced
               issuedInvoice
               (account 1 "1000" "Cash" ASSET)
               (incrementBalance (invoiceTotal invoice1000)
                                 (account 2 "1100" "Accounts Receivable" ASSET))).
  - vm_compute. reflexivity.
  - discriminate.
  - vm_compute. discriminate.
  - vm_compute. reflexivity.
  - vm_compute. reflexivity.
Defined.


(** Rejection of the entry approved above. *)
Lemma reject_changes_status_only_witness :
  let s' := fst (rejectJournalEntry clerk 1 JUndefined ledgerApproved) in
  snd (rejectJournalEntry clerk 1 JUndefined ledgerApproved)
  = Ok (withStatus REJECTED approvedEntry)
  /\ accounts s' = accounts ledgerApproved.
Proof.
  pose proof (reject_changes_status_only clerk 1 JUndefined ledgerApproved
                approvedEntry) as H.
  cbv zeta in *. split; apply H; vm_compute; reflexivity.
Defined.

